(** * Book catalogue lambda: request validation and dispatch

    A shallow embedding of [main.go]: the ISBN format check, the
    method router, the read handler [show], the write handler
    [create] and the two error responders, together with the
    properties stated about them. *)

From Stdlib Require Import ZArith NArith Ascii List Bool Lia.
From stdpp Require Import base option gmap strings list fin_maps pretty.

(** ** Strings

    A Go string is a sequence of bytes; [string] (a list of [ascii]) is
    used with the same reading. *)

Definition byte_of (c : ascii) : N := N_of_ascii c.

(** ** package regexp: the fragment used by [isbnRegexp]

    The pattern of [main.go] uses character ranges, an escaped literal,
    bounded repetition and concatenation.  Every construct consumes a
    fixed number of characters, so matching at a position is
    deterministic. *)

Inductive regex : Type :=
| CharRange (lo hi : ascii)
| Char (c : ascii)
| Repeat (r : regex) (n : nat)
| Concat (r1 r2 : regex).

Definition inRange (lo hi c : ascii) : bool :=
  ((byte_of lo <=? byte_of c)%N && (byte_of c <=? byte_of hi)%N)%bool.

(** [matchPrefix r s] matches [r] at the start of [s] and returns the
    unconsumed rest. *)
Fixpoint matchPrefix (r : regex) (s : string) : option string :=
  match r with
  | CharRange lo hi =>
      match s with
      | String c s' => if inRange lo hi c then Some s' else None
      | EmptyString => None
      end
  | Char c0 =>
      match s with
      | String c s' => if Ascii.eqb c0 c then Some s' else None
      | EmptyString => None
      end
  | Repeat r0 n =>
      (fix rep (k : nat) (t : string) {struct k} : option string :=
         match k with
         | O => Some t
         | S k' =>
             match matchPrefix r0 t with
             | Some t' => rep k' t'
             | None => None
             end
         end) n s
  | Concat r1 r2 =>
      match matchPrefix r1 s with
      | Some s' => matchPrefix r2 s'
      | None => None
      end
  end.

(** [Regexp.MatchString]: the pattern is not anchored, so the match may
    start at any position of the string. *)
Fixpoint MatchString (r : regex) (s : string) : bool :=
  match matchPrefix r s with
  | Some _ => true
  | None =>
      match s with
      | String _ s' => MatchString r s'
      | EmptyString => false
      end
  end.

(** [var isbnRegexp = regexp.MustCompile(`[0-9]{3}\-[0-9]{10}`)] *)
Definition isbnRegexp : regex :=
  Concat (Repeat (CharRange "0" "9") 3)
         (Concat (Char "-") (Repeat (CharRange "0" "9") 10)).

(** The wording of the specification: a run of three digits, a hyphen
    and ten digits. *)
Definition isDigit (c : ascii) : bool := inRange "0" "9" c.

Fixpoint allDigits (s : string) : bool :=
  match s with
  | EmptyString => true
  | String c s' => isDigit c && allDigits s'
  end.

Definition spec_isbn_shape (m : string) : Prop :=
  ∃ a b : string,
    m = a +:+ "-" +:+ b ∧
    String.length a = 3 ∧ allDigits a = true ∧
    String.length b = 10 ∧ allDigits b = true.

Definition spec_contains_isbn (s : string) : Prop :=
  ∃ pre m post : string, s = pre +:+ m +:+ post ∧ spec_isbn_shape m.


(** ** package net/http: status codes and reason phrases *)

Definition StatusOK : Z := 200.
Definition StatusCreated : Z := 201.
Definition StatusBadRequest : Z := 400.
Definition StatusNotFound : Z := 404.
Definition StatusMethodNotAllowed : Z := 405.
Definition StatusNotAcceptable : Z := 406.
Definition StatusUnprocessableEntity : Z := 422.
Definition StatusInternalServerError : Z := 500.

(** [http.StatusText]: the reason phrase of a status code, the empty
    string for a code the table does not know. *)
Definition StatusText (code : Z) : string :=
  match code with
  | 100 => "Continue"
  | 101 => "Switching Protocols"
  | 102 => "Processing"
  | 103 => "Early Hints"
  | 200 => "OK"
  | 201 => "Created"
  | 202 => "Accepted"
  | 203 => "Non-Authoritative Information"
  | 204 => "No Content"
  | 205 => "Reset Content"
  | 206 => "Partial Content"
  | 207 => "Multi-Status"
  | 208 => "Already Reported"
  | 226 => "IM Used"
  | 300 => "Multiple Choices"
  | 301 => "Moved Permanently"
  | 302 => "Found"
  | 303 => "See Other"
  | 304 => "Not Modified"
  | 305 => "Use Proxy"
  | 307 => "Temporary Redirect"
  | 308 => "Permanent Redirect"
  | 400 => "Bad Request"
  | 401 => "Unauthorized"
  | 402 => "Payment Required"
  | 403 => "Forbidden"
  | 404 => "Not Found"
  | 405 => "Method Not Allowed"
  | 406 => "Not Acceptable"
  | 407 => "Proxy Authentication Required"
  | 408 => "Request Timeout"
  | 409 => "Conflict"
  | 410 => "Gone"
  | 411 => "Length Required"
  | 412 => "Precondition Failed"
  | 413 => "Request Entity Too Large"
  | 414 => "Request URI Too Long"
  | 415 => "Unsupported Media Type"
  | 416 => "Requested Range Not Satisfiable"
  | 417 => "Expectation Failed"
  | 418 => "I'm a teapot"
  | 421 => "Misdirected Request"
  | 422 => "Unprocessable Entity"
  | 423 => "Locked"
  | 424 => "Failed Dependency"
  | 425 => "Too Early"
  | 426 => "Upgrade Required"
  | 428 => "Precondition Required"
  | 429 => "Too Many Requests"
  | 431 => "Request Header Fields Too Large"
  | 451 => "Unavailable For Legal Reasons"
  | 500 => "Internal Server Error"
  | 501 => "Not Implemented"
  | 502 => "Bad Gateway"
  | 503 => "Service Unavailable"
  | 504 => "Gateway Timeout"
  | 505 => "HTTP Version Not Supported"
  | 506 => "Variant Also Negotiates"
  | 507 => "Insufficient Storage"
  | 508 => "Loop Detected"
  | 510 => "Not Extended"
  | 511 => "Network Authentication Required"
  | _ => ""
  end%Z.

(** ** Data model *)

(** [type book struct] *)
Record book : Type := Book {
  ISBN : string;
  Title : string;
  Author : string;
}.

Global Instance book_eq_dec : EqDecision book.
Proof. solve_decision. Defined.

(** A non-nil value of Go's [error] interface, as far as the program
    can observe it: the text returned by its [Error()] method.  A nil
    error is [None]. *)
Record error : Type := errorString { Error : string }.

(** [map[string]string] indexing: a key that is missing (or a nil map)
    yields the zero value of [string]. *)
Definition index (m : gmap string string) (k : string) : string :=
  default "" (m !! k).

(** [events.APIGatewayProxyRequest], the fields the gateway fills in
    that the handlers can see. *)
Module Request.
Record t : Type := Make {
  Path : string;
  HTTPMethod : string;
  Headers : gmap string string;
  QueryStringParameters : gmap string string;
  Body : string;
}.
End Request.

(** [events.APIGatewayProxyResponse]; a field left out of a composite
    literal has its zero value (the empty map, the empty string). *)
Module Response.
Record t : Type := Make {
  StatusCode : Z;
  Headers : gmap string string;
  Body : string;
}.
End Response.

(** ** package log: the fragment used by [errorLogger] *)

Definition Ldate : Z := 1.
Definition Ltime : Z := 2.
Definition Lmicroseconds : Z := 4.
Definition Llongfile : Z := 8.
Definition Lshortfile : Z := 16.
Definition LUTC : Z := 32.
Definition Lmsgprefix : Z := 64.

Record Logger : Type := NewLogger { prefix : string; flag : Z }.

(** [var errorLogger = log.New(os.Stderr, "ERROR ", log.Llongfile)] *)
Definition errorLogger : Logger := NewLogger "ERROR " Llongfile.

Definition hasFlag (flags bit : Z) : bool := negb (Z.land flags bit =? 0)%Z.

(** The final element of a slash separated path. *)
Fixpoint baseName (acc file : string) : string :=
  match file with
  | EmptyString => acc
  | String c rest =>
      if Ascii.eqb c "/" then baseName rest rest
      else baseName acc rest
  end.

(** The header [Logger.formatHeader] puts before a message, for a
    logger without the date and time flags (as [errorLogger] is). *)
Definition formatHeader (l : Logger) (file : string) (line : N) : string :=
  (if hasFlag (flag l) Lmsgprefix then "" else prefix l) +:+
  (if hasFlag (flag l) (Z.lor Lshortfile Llongfile)
   then (if hasFlag (flag l) Lshortfile then baseName file file else file)
          +:+ ":" +:+ pretty line +:+ ": "
   else "") +:+
  (if hasFlag (flag l) Lmsgprefix then prefix l else "").

Fixpoint endsWithNewline (s : string) : bool :=
  match s with
  | EmptyString => false
  | String c EmptyString => Ascii.eqb c "010"
  | String _ rest => endsWithNewline rest
  end.

(** [Logger.Output]: header, message, and a newline unless the message
    already ends in one; the result is one write to the logger's sink. *)
Definition Output (l : Logger) (file : string) (line : N) (s : string) : string :=
  formatHeader l file line +:+ s +:+
  (if endsWithNewline s then "" else String "010" "").

(** [Logger.Println(v)] for one string operand: [fmt.Sprintln] appends
    a newline to the operand. *)
Definition Sprintln (v : string) : string := v +:+ String "010" "".

Definition Println_record (l : Logger) (file : string) (line : N) (v : string)
  : string :=
  Output l file line (Sprintln v).

(** ** package unicode/utf8 *)

Local Open Scope N_scope.

Definition chr (n : N) : ascii := ascii_of_N n.

Definition RuneError : N := 0xFFFD.
Definition MaxRune : N := 0x10FFFF.
Definition RuneSelf : N := 0x80.

(** For a leading byte of a multi-byte sequence: the length of the
    sequence and the range the second byte has to lie in. *)
Definition acceptRange (b0 : N) : option (nat * N * N) :=
  if (0xC2 <=? b0) && (b0 <=? 0xDF) then Some (2%nat, 0x80, 0xBF)
  else if b0 =? 0xE0 then Some (3%nat, 0xA0, 0xBF)
  else if (0xE1 <=? b0) && (b0 <=? 0xEC) then Some (3%nat, 0x80, 0xBF)
  else if b0 =? 0xED then Some (3%nat, 0x80, 0x9F)
  else if (0xEE <=? b0) && (b0 <=? 0xEF) then Some (3%nat, 0x80, 0xBF)
  else if b0 =? 0xF0 then Some (4%nat, 0x90, 0xBF)
  else if (0xF1 <=? b0) && (b0 <=? 0xF3) then Some (4%nat, 0x80, 0xBF)
  else if b0 =? 0xF4 then Some (4%nat, 0x80, 0x8F)
  else None.

Definition isCont (b : N) : bool := (0x80 <=? b) && (b <=? 0xBF).

(** [utf8.DecodeRune]: the first rune of [s] and its width in bytes; an
    encoding that is not valid yields [(RuneError, 1)], the empty input
    [(RuneError, 0)]. *)
Definition DecodeRune (s : string) : N * nat :=
  match s with
  | EmptyString => (RuneError, 0%nat)
  | String c0 s1 =>
      let b0 := byte_of c0 in
      if b0 <? RuneSelf then (b0, 1%nat)
      else
        match acceptRange b0, s1 with
        | Some (sz, lo, hi), String c1 s2 =>
            let b1 := byte_of c1 in
            if (b1 <? lo) || (hi <? b1) then (RuneError, 1%nat)
            else if (sz =? 2)%nat then
              (N.lor (N.shiftl (N.land b0 0x1F) 6) (N.land b1 0x3F), 2%nat)
            else
              match s2 with
              | String c2 s3 =>
                  let b2 := byte_of c2 in
                  if negb (isCont b2) then (RuneError, 1%nat)
                  else if (sz =? 3)%nat then
                    (N.lor (N.lor (N.shiftl (N.land b0 0x0F) 12)
                                  (N.shiftl (N.land b1 0x3F) 6))
                           (N.land b2 0x3F), 3%nat)
                  else
                    match s3 with
                    | String c3 _ =>
                        let b3 := byte_of c3 in
                        if negb (isCont b3) then (RuneError, 1%nat)
                        else
                          (N.lor (N.lor (N.lor (N.shiftl (N.land b0 0x07) 18)
                                               (N.shiftl (N.land b1 0x3F) 12))
                                        (N.shiftl (N.land b2 0x3F) 6))
                                 (N.land b3 0x3F), 4%nat)
                    | EmptyString => (RuneError, 1%nat)
                    end
              | EmptyString => (RuneError, 1%nat)
              end
        | _, _ => (RuneError, 1%nat)
        end
  end.

Definition isSurrogate (r : N) : bool := (0xD800 <=? r) && (r <? 0xE000).

(** [utf8.EncodeRune] / [utf8.AppendRune]: a rune out of range or in
    the surrogate range is written as [RuneError]. *)
Definition EncodeRune (r : N) : string :=
  if r <=? 0x7F then String (chr r) ""
  else if r <=? 0x7FF then
    String (chr (N.lor 0xC0 (N.shiftr r 6)))
      (String (chr (N.lor 0x80 (N.land r 0x3F))) "")
  else if (MaxRune <? r) || isSurrogate r then
    String (chr 0xEF) (String (chr 0xBF) (String (chr 0xBD) ""))
  else if r <=? 0xFFFF then
    String (chr (N.lor 0xE0 (N.shiftr r 12)))
      (String (chr (N.lor 0x80 (N.land (N.shiftr r 6) 0x3F)))
         (String (chr (N.lor 0x80 (N.land r 0x3F))) ""))
  else
    String (chr (N.lor 0xF0 (N.shiftr r 18)))
      (String (chr (N.lor 0x80 (N.land (N.shiftr r 12) 0x3F)))
         (String (chr (N.lor 0x80 (N.land (N.shiftr r 6) 0x3F)))
            (String (chr (N.lor 0x80 (N.land r 0x3F))) ""))).

(** [utf16.DecodeRune]: the code point of a surrogate pair. *)
Definition utf16_DecodeRune (r1 r2 : N) : N :=
  if (0xD800 <=? r1) && (r1 <? 0xDC00) && (0xDC00 <=? r2) && (r2 <? 0xE000)
  then N.lor (N.shiftl (r1 - 0xD800) 10) (r2 - 0xDC00) + 0x10000
  else RuneError.

(** A left-to-right pass over a string in which the item at the current
    position decides what is written and how many bytes it spans:
    [item s] looks at the text that starts at the current byte and
    returns the output for it and its width; the bytes the item
    spans beyond the first are stepped over.  [None] aborts the pass. *)
Fixpoint itemPass (item : string → option (string * nat)) (skip : nat)
    (s : string) : option string :=
  match s with
  | EmptyString => Some ""
  | String c rest =>
      match skip with
      | S k => itemPass item k rest
      | O =>
          match item s with
          | Some (out, width) =>
              match itemPass item (Nat.pred width) rest with
              | Some t => Some (out +:+ t)
              | None => None
              end
          | None => None
          end
      end
  end.

Fixpoint takeS (n : nat) (s : string) : string :=
  match n, s with
  | S k, String c rest => String c (takeS k rest)
  | _, _ => ""
  end.

Close Scope N_scope.

(** ** package encoding/json: the scanner

    [json.Unmarshal] first runs the scanner over the whole input and
    only then decodes.  The scanner is a pushdown automaton that reads
    one byte at a time: [step] names the state function that takes the
    next byte and [parseState] is the stack of open objects and arrays.
    Here every stack entry also holds the part of its composite value
    read so far, so that a run of the automaton yields the value
    together with the verdict. *)

#[local] Set Warnings "-register-all".

Inductive json : Type :=
| JNull
| JBool (b : bool)
| JNumber (text : string)
| JString (raw : string)
| JArray (elems : list json)
| JObject (members : list (string * json)).

Inductive frame : Type :=
| parseObjectKey (members : list (string * json)) (key : string)
| parseObjectValue (members : list (string * json)) (key : string)
| parseArrayValue (elems : list json).

Inductive scanStep : Type :=
| stateBeginValue | stateBeginValueOrEmpty
| stateBeginStringOrEmpty | stateBeginString
| stateEndValue | stateEndTop
| stateInString | stateInStringEsc
| stateInStringEscU | stateInStringEscU1
| stateInStringEscU12 | stateInStringEscU123
| stateNeg | state1 | state0
| stateDot | stateDot0 | stateE | stateESign | stateE0
| stateT | stateTr | stateTru
| stateF | stateFa | stateFal | stateFals
| stateN | stateNu | stateNul
| stateError.

Record scanner : Type := Scanner {
  step : scanStep;
  parseState : list frame;
  lit : string;
  top : option json;
}.

Definition DQ : ascii := "034".
Definition BS : ascii := "\".

Definition isByte (x c : ascii) : bool := Ascii.eqb c x.

Definition isSpace (c : ascii) : bool :=
  isByte " " c || isByte "009" c || isByte "013" c || isByte "010" c.

Definition isDigit19 (c : ascii) : bool := inRange "1" "9" c.

Definition isHex (c : ascii) : bool :=
  inRange "0" "9" c || inRange "a" "f" c || inRange "A" "F" c.

Definition snoc (s : string) (c : ascii) : string := s +:+ String c "".

Definition maxNestingDepth : N := 10000.

Definition scanError : scanner := Scanner stateError [] "" None.

Definition setStep (st : scanStep) (s : scanner) : scanner :=
  Scanner st (parseState s) (lit s) (top s).

(** A byte that continues the literal being read. *)
Definition more (st : scanStep) (c : ascii) (s : scanner) : scanner :=
  Scanner st (parseState s) (snoc (lit s) c) (top s).

(** A byte that starts a literal. *)
Definition start (st : scanStep) (text : string) (s : scanner) : scanner :=
  Scanner st (parseState s) text (top s).

(** A value is complete: it goes to the innermost open composite, or is
    the result when none is open. *)
Definition emit (v : json) (ps : list frame) (tp : option json) : scanner :=
  match ps with
  | [] => Scanner stateEndValue [] "" (Some v)
  | parseObjectKey ms _ :: ps' =>
      match v with
      | JString raw => Scanner stateEndValue (parseObjectKey ms raw :: ps') "" tp
      | _ => scanError
      end
  | parseObjectValue ms k :: ps' =>
      Scanner stateEndValue (parseObjectValue (ms ++ [(k, v)]) k :: ps') "" tp
  | parseArrayValue els :: ps' =>
      Scanner stateEndValue (parseArrayValue (els ++ [v]) :: ps') "" tp
  end.

(** [popParseState], handing the closed composite [v] on. *)
Definition popParseState (v : json) (ps' : list frame) (tp : option json)
  : scanner :=
  match ps' with
  | [] => setStep stateEndTop (emit v ps' tp)
  | _ :: _ => emit v ps' tp
  end.

Definition pushParseState (f : frame) (st : scanStep) (s : scanner) : scanner :=
  if (N.of_nat (length (parseState s)) <? maxNestingDepth)%N
  then Scanner st (f :: parseState s) "" (top s)
  else scanError.

Definition do_EndTop (s : scanner) (c : ascii) : scanner :=
  if isSpace c then setStep stateEndTop s else scanError.

Definition do_EndValue (s : scanner) (c : ascii) : scanner :=
  match parseState s with
  | [] => do_EndTop s c
  | f :: ps =>
      if isSpace c then setStep stateEndValue s
      else
        match f with
        | parseObjectKey ms k =>
            if isByte ":" c
            then Scanner stateBeginValue (parseObjectValue ms k :: ps) "" (top s)
            else scanError
        | parseObjectValue ms k =>
            if isByte "," c
            then Scanner stateBeginString (parseObjectKey ms "" :: ps) "" (top s)
            else if isByte "}" c then popParseState (JObject ms) ps (top s)
            else scanError
        | parseArrayValue els =>
            if isByte "," c then setStep stateBeginValue s
            else if isByte "]" c then popParseState (JArray els) ps (top s)
            else scanError
        end
  end.

Definition do_BeginValue (s : scanner) (c : ascii) : scanner :=
  if isSpace c then s
  else if isByte "{" c then
    pushParseState (parseObjectKey [] "") stateBeginStringOrEmpty s
  else if isByte "[" c then
    pushParseState (parseArrayValue []) stateBeginValueOrEmpty s
  else if isByte DQ c then start stateInString "" s
  else if isByte "-" c then start stateNeg "-" s
  else if isByte "0" c then start state0 "0" s
  else if isByte "t" c then start stateT "" s
  else if isByte "f" c then start stateF "" s
  else if isByte "n" c then start stateN "" s
  else if isDigit19 c then start state1 (String c "") s
  else scanError.

Definition do_BeginString (s : scanner) (c : ascii) : scanner :=
  if isSpace c then s
  else if isByte DQ c then start stateInString "" s
  else scanError.

Definition do_BeginStringOrEmpty (s : scanner) (c : ascii) : scanner :=
  if isSpace c then s
  else if isByte "}" c then
    match parseState s with
    | parseObjectKey ms k :: ps =>
        do_EndValue (Scanner (step s) (parseObjectValue ms k :: ps) (lit s) (top s)) c
    | _ => scanError
    end
  else do_BeginString s c.

Definition do_BeginValueOrEmpty (s : scanner) (c : ascii) : scanner :=
  if isSpace c then s
  else if isByte "]" c then do_EndValue s c
  else do_BeginValue s c.

Definition do_InString (s : scanner) (c : ascii) : scanner :=
  if isByte DQ c then emit (JString (lit s)) (parseState s) (top s)
  else if isByte BS c then more stateInStringEsc c s
  else if (byte_of c <? 32)%N then scanError
  else more stateInString c s.

Definition do_InStringEsc (s : scanner) (c : ascii) : scanner :=
  if isByte "b" c || isByte "f" c || isByte "n" c || isByte "r" c || isByte "t" c
     || isByte BS c || isByte "/" c || isByte DQ c
  then more stateInString c s
  else if isByte "u" c then more stateInStringEscU c s
  else scanError.

Definition do_Hex (next : scanStep) (s : scanner) (c : ascii) : scanner :=
  if isHex c then more next c s else scanError.

(** The end of a number is only seen at the byte that follows it. *)
Definition endNumber (s : scanner) (c : ascii) : scanner :=
  do_EndValue (emit (JNumber (lit s)) (parseState s) (top s)) c.

Definition do_0 (s : scanner) (c : ascii) : scanner :=
  if isByte "." c then more stateDot c s
  else if isByte "e" c || isByte "E" c then more stateE c s
  else endNumber s c.

Definition do_1 (s : scanner) (c : ascii) : scanner :=
  if isDigit c then more state1 c s else do_0 s c.

Definition do_Neg (s : scanner) (c : ascii) : scanner :=
  if isByte "0" c then more state0 c s
  else if isDigit19 c then more state1 c s
  else scanError.

Definition do_Dot (s : scanner) (c : ascii) : scanner :=
  if isDigit c then more stateDot0 c s else scanError.

Definition do_Dot0 (s : scanner) (c : ascii) : scanner :=
  if isDigit c then more stateDot0 c s
  else if isByte "e" c || isByte "E" c then more stateE c s
  else endNumber s c.

Definition do_ESign (s : scanner) (c : ascii) : scanner :=
  if isDigit c then more stateE0 c s else scanError.

Definition do_E (s : scanner) (c : ascii) : scanner :=
  if isByte "+" c || isByte "-" c then more stateESign c s else do_ESign s c.

Definition do_E0 (s : scanner) (c : ascii) : scanner :=
  if isDigit c then more stateE0 c s else endNumber s c.

Definition do_Letter (x : ascii) (next : scanStep) (s : scanner) (c : ascii)
  : scanner :=
  if isByte x c then setStep next s else scanError.

Definition do_LastLetter (x : ascii) (v : json) (s : scanner) (c : ascii)
  : scanner :=
  if isByte x c then emit v (parseState s) (top s) else scanError.

(** One byte through the automaton. *)
Definition scanByte (s : scanner) (c : ascii) : scanner :=
  match step s with
  | stateBeginValue => do_BeginValue s c
  | stateBeginValueOrEmpty => do_BeginValueOrEmpty s c
  | stateBeginStringOrEmpty => do_BeginStringOrEmpty s c
  | stateBeginString => do_BeginString s c
  | stateEndValue => do_EndValue s c
  | stateEndTop => do_EndTop s c
  | stateInString => do_InString s c
  | stateInStringEsc => do_InStringEsc s c
  | stateInStringEscU => do_Hex stateInStringEscU1 s c
  | stateInStringEscU1 => do_Hex stateInStringEscU12 s c
  | stateInStringEscU12 => do_Hex stateInStringEscU123 s c
  | stateInStringEscU123 => do_Hex stateInString s c
  | stateNeg => do_Neg s c
  | state1 => do_1 s c
  | state0 => do_0 s c
  | stateDot => do_Dot s c
  | stateDot0 => do_Dot0 s c
  | stateE => do_E s c
  | stateESign => do_ESign s c
  | stateE0 => do_E0 s c
  | stateT => do_Letter "r" stateTr s c
  | stateTr => do_Letter "u" stateTru s c
  | stateTru => do_LastLetter "e" (JBool true) s c
  | stateF => do_Letter "a" stateFa s c
  | stateFa => do_Letter "l" stateFal s c
  | stateFal => do_Letter "s" stateFals s c
  | stateFals => do_LastLetter "e" (JBool false) s c
  | stateN => do_Letter "u" stateNu s c
  | stateNu => do_Letter "l" stateNul s c
  | stateNul => do_LastLetter "l" JNull s c
  | stateError => scanError
  end.

Fixpoint scanBytes (s : scanner) (data : string) : scanner :=
  match data with
  | EmptyString => s
  | String c rest => scanBytes (scanByte s c) rest
  end.

Definition isEndTop (s : scanner) : bool :=
  match step s with stateEndTop => true | _ => false end.

(** [scanner.eof]: a value that ends with the input is closed by
    feeding one space. *)
Definition eof (s : scanner) : option json :=
  if isEndTop s then top s
  else
    let s' := scanByte s " " in
    if isEndTop s' then top s' else None.

(** [checkValid] together with the value read: [None] is a syntax
    error. *)
Definition scanJSON (data : string) : option json :=
  eof (scanBytes (Scanner stateBeginValue [] "" None) data).

(** ** package encoding/json: string literals *)

Definition hexVal (c : ascii) : option N :=
  let b := byte_of c in
  if inRange "0" "9" c then Some (b - 48)%N
  else if inRange "a" "f" c then Some (b - 97 + 10)%N
  else if inRange "A" "F" c then Some (b - 65 + 10)%N
  else None.

(** [getu4]: the rune of a [\uXXXX] escape at the start of [s]. *)
Definition getu4 (s : string) : option N :=
  match s with
  | String b (String u (String h1 (String h2 (String h3 (String h4 _))))) =>
      if isByte BS b && isByte "u" u then
        match hexVal h1, hexVal h2, hexVal h3, hexVal h4 with
        | Some a, Some b, Some c, Some d =>
            Some (a * 4096 + b * 256 + c * 16 + d)%N
        | _, _, _, _ => None
        end
      else None
  | _ => None
  end.

Fixpoint dropS (n : nat) (s : string) : string :=
  match n, s with
  | S k, String _ rest => dropS k rest
  | _, _ => s
  end.

(** The item at the head of the text between the quotes of a string
    literal, as [unquoteBytes] reads it: an escape sequence, an ASCII
    byte, or a multi-byte rune, which is coerced to well-formed
    UTF-8. *)
Definition unquoteItem (s : string) : option (string * nat) :=
  match s with
  | EmptyString => None
  | String c rest =>
      if isByte BS c then
        match rest with
        | EmptyString => None
        | String e _ =>
            if isByte DQ e || isByte BS e || isByte "/" e || isByte "'" e
            then Some (String e "", 2)
            else if isByte "b" e then Some (String "008" "", 2)
            else if isByte "f" e then Some (String "012" "", 2)
            else if isByte "n" e then Some (String "010" "", 2)
            else if isByte "r" e then Some (String "013" "", 2)
            else if isByte "t" e then Some (String "009" "", 2)
            else if isByte "u" e then
              match getu4 s with
              | None => None
              | Some rr =>
                  if isSurrogate rr then
                    let dec :=
                      match getu4 (dropS 6 s) with
                      | Some rr1 => utf16_DecodeRune rr rr1
                      | None => RuneError
                      end in
                    if (dec =? RuneError)%N
                    then Some (EncodeRune RuneError, 6)
                    else Some (EncodeRune dec, 12)
                  else Some (EncodeRune rr, 6)
              end
            else None
        end
      else if isByte DQ c || (byte_of c <? 32)%N then None
      else if (byte_of c <? RuneSelf)%N then Some (String c "", 1)
      else
        let '(rr, size) := DecodeRune s in
        Some (EncodeRune rr, size)
  end.

(** [unquote]: the Go string a string literal stands for. *)
Definition unquote (raw : string) : option string :=
  itemPass unquoteItem 0 raw.

Definition hexDigit (n : N) : ascii :=
  if (n <? 10)%N then chr (48 + n) else chr (97 + (n - 10)).

(** [htmlSafeSet]: the ASCII bytes [json.Marshal] writes as they are. *)
Definition htmlSafe (c : ascii) : bool :=
  (32 <=? byte_of c)%N
  && negb (isByte DQ c || isByte "&" c || isByte "<" c || isByte ">" c
           || isByte BS c).

(** The item at the head of a Go string as [appendString] writes it,
    with HTML escaping on (the setting of [json.Marshal]). *)
Definition encodeItem (s : string) : option (string * nat) :=
  match s with
  | EmptyString => None
  | String c _ =>
      if (byte_of c <? RuneSelf)%N then
        if htmlSafe c then Some (String c "", 1)
        else if isByte BS c || isByte DQ c then Some (String BS (String c ""), 1)
        else if isByte "008" c then Some ("\b", 1)
        else if isByte "012" c then Some ("\f", 1)
        else if isByte "010" c then Some ("\n", 1)
        else if isByte "013" c then Some ("\r", 1)
        else if isByte "009" c then Some ("\t", 1)
        else
          Some ("\u00" +:+ String (hexDigit (N.shiftr (byte_of c) 4))
                            (String (hexDigit (N.land (byte_of c) 15)) ""), 1)
      else
        let '(r, size) := DecodeRune s in
        if (r =? RuneError)%N && (size =? 1) then Some ("\ufffd", 1)
        else if (r =? 0x2028)%N || (r =? 0x2029)%N
        then Some ("\u202" +:+ String (hexDigit (N.land r 15)) "", size)
        else Some (takeS size s, size)
  end.

Definition appendString (s : string) : string :=
  String DQ (default "" (itemPass encodeItem 0 s) +:+ String DQ "").

(** ** package encoding/json: the codec of [book] *)

(** [json.Marshal(bk)]: the fields in declaration order under the
    names of their tags; strings cannot fail to encode, the error is
    always nil. *)
Definition json_Marshal (bk : book) : string * option error :=
  ("{" +:+ appendString "isbn" +:+ ":" +:+ appendString (ISBN bk) +:+
   "," +:+ appendString "title" +:+ ":" +:+ appendString (Title bk) +:+
   "," +:+ appendString "author" +:+ ":" +:+ appendString (Author bk) +:+
   "}", None).

(** The two kinds of error [json.Unmarshal] reports for [book]. *)
Inductive UnmarshalError : Type :=
| SyntaxError
| UnmarshalTypeError (value : string).

(** [foldRune], restricted to what a comparison with an ASCII name can
    see: the long s and the Kelvin sign are the only runes outside
    ASCII whose fold orbit contains an ASCII letter; every other rune
    outside ASCII folds to a rune outside ASCII and is kept as it is. *)
Definition foldRune (r : N) : N :=
  if (r =? 0x17F)%N then 0x53%N
  else if (r =? 0x212A)%N then 0x4B%N
  else r.

Definition foldItem (s : string) : option (string * nat) :=
  match s with
  | EmptyString => None
  | String c _ =>
      if (byte_of c <? RuneSelf)%N then
        if inRange "a" "z" c then Some (String (chr (byte_of c - 32)) "", 1)
        else Some (String c "", 1)
      else
        let '(r, size) := DecodeRune s in
        Some (EncodeRune (foldRune r), size)
  end.

Definition foldName (name : string) : string :=
  default "" (itemPass foldItem 0 name).

Inductive field : Type := fieldISBN | fieldTitle | fieldAuthor.

Definition fieldName (f : field) : string :=
  match f with
  | fieldISBN => "isbn"
  | fieldTitle => "title"
  | fieldAuthor => "author"
  end.

(** The field an object key selects: the one with that name, else the
    one whose name is equal to the key under case folding. *)
Definition fieldByName (key : string) : option field :=
  let exact := filter (λ f, fieldName f = key) [fieldISBN; fieldTitle; fieldAuthor] in
  let folded :=
    filter (λ f, foldName (fieldName f) = foldName key)
           [fieldISBN; fieldTitle; fieldAuthor] in
  head (exact ++ folded).

Definition setField (f : field) (v : string) (bk : book) : book :=
  match f with
  | fieldISBN => Book v (Title bk) (Author bk)
  | fieldTitle => Book (ISBN bk) v (Author bk)
  | fieldAuthor => Book (ISBN bk) (Title bk) v
  end.

(** [saveError]: the first error is the one that is reported. *)
Definition saveError (e : UnmarshalError) (saved : option UnmarshalError)
  : option UnmarshalError :=
  match saved with
  | Some e0 => Some e0
  | None => Some e
  end.

Definition kindName (v : json) : string :=
  match v with
  | JNull => "null"
  | JBool _ => "bool"
  | JNumber _ => "number"
  | JString _ => "string"
  | JArray _ => "array"
  | JObject _ => "object"
  end.

(** One [key: value] pair of the object being decoded into [bk]. *)
Definition decodeMember (st : book * option UnmarshalError)
    (m : string * json) : book * option UnmarshalError :=
  let '(bk, saved) := st in
  match unquote m.1 with
  | None => (bk, saveError SyntaxError saved)
  | Some key =>
      match fieldByName key with
      | None => (bk, saved)
      | Some f =>
          match m.2 with
          | JString raw =>
              match unquote raw with
              | Some v => (setField f v bk, saved)
              | None => (bk, saveError SyntaxError saved)
              end
          | JNull => (bk, saved)
          | v => (bk, saveError (UnmarshalTypeError (kindName v)) saved)
          end
      end
  end.

(** [json.Unmarshal(data, bk)] for [bk : *book]. *)
Definition json_Unmarshal (data : string) (bk : book)
  : book * option UnmarshalError :=
  match scanJSON data with
  | None => (bk, Some SyntaxError)
  | Some (JObject ms) => fold_left decodeMember ms (bk, None)
  | Some JNull => (bk, None)
  | Some v => (bk, Some (UnmarshalTypeError (kindName v)))
  end.

(** Test inputs are written with ['] where the JSON text has a double
    quote. *)
Fixpoint dq (s : string) : string :=
  match s with
  | EmptyString => EmptyString
  | String c rest => String (if isByte "'" c then DQ else c) (dq rest)
  end.

(** ** The collaborators

    The handlers talk to two things outside themselves: the persistence
    functions [getItem] and [putItem], and the sink of [errorLogger].
    A handler is a tree of such calls: each node names the call and its
    operands, and continues with the answer. *)

Inductive Prog (A : Type) : Type :=
| Ret (a : A)
| Call_getItem (isbn : string) (k : option book * option error → Prog A)
| Call_putItem (bk : book) (k : option error → Prog A)
| Call_Println (l : Logger) (line : N) (v : string) (k : Prog A).

Arguments Ret {A} a.
Arguments Call_getItem {A} isbn k.
Arguments Call_putItem {A} bk k.
Arguments Call_Println {A} l line v k.

Fixpoint bind {A B : Type} (p : Prog A) (f : A → Prog B) : Prog B :=
  match p with
  | Ret a => f a
  | Call_getItem isbn k => Call_getItem isbn (λ r, bind (k r) f)
  | Call_putItem bk k => Call_putItem bk (λ r, bind (k r) f)
  | Call_Println l line v k => Call_Println l line v (bind k f)
  end.

Global Instance Prog_ret : MRet Prog := @Ret.
Global Instance Prog_bind : MBind Prog := λ A B f p, bind p f.

(** [func getItem(isbn string)], returning a [*book] and an [error] *)
Definition getItem (isbn : string) : Prog (option book * option error) :=
  Call_getItem isbn Ret.

(** [func putItem(bk *book) error] *)
Definition putItem (bk : book) : Prog (option error) :=
  Call_putItem bk Ret.

(** [l.Println(v)] at line [line] of [main.go]. *)
Definition Println (l : Logger) (line : N) (v : string) : Prog unit :=
  Call_Println l line v (Ret tt).

(** ** main.go: the handlers *)

(** What a handler returns: [(events.APIGatewayProxyResponse, error)]. *)
Definition result : Type := Response.t * option error.

(** [func clientError(status int)] *)
Definition clientError (status : Z) : Prog result :=
  mret (Response.Make status ∅ (StatusText status), None).

(** [func serverError(err error)]; the call of [Println] is on line 100
    of the file. *)
Definition serverError (err : error) : Prog result :=
  Println errorLogger 100 (Error err);;
  mret (Response.Make StatusInternalServerError ∅
          (StatusText StatusInternalServerError), None).

(** [func show(req events.APIGatewayProxyRequest)] *)
Definition show (req : Request.t) : Prog result :=
  let isbn := index (Request.QueryStringParameters req) "isbn" in
  if negb (MatchString isbnRegexp isbn) then clientError StatusBadRequest
  else
    '(bk, err) ← getItem isbn;
    match err with
    | Some e => serverError e
    | None =>
        match bk with
        | None => clientError StatusNotFound
        | Some b =>
            let '(js, err) := json_Marshal b in
            match err with
            | Some e => serverError e
            | None => mret (Response.Make StatusOK ∅ js, None)
            end
        end
    end.

(** [new(book)]: every field has its zero value. *)
Definition new_book : book := Book "" "" "".

(** [fmt.Sprintf("/books?isbn=%s", isbn)] *)
Definition Sprintf_location (isbn : string) : string := "/books?isbn=" +:+ isbn.

(** [func create(req events.APIGatewayProxyRequest)] *)
Definition create (req : Request.t) : Prog result :=
  if negb (bool_decide (index (Request.Headers req) "Content-Type"
                        = "application/json"))
  then clientError StatusNotAcceptable
  else
    let '(bk, err) := json_Unmarshal (Request.Body req) new_book in
    match err with
    | Some _ => clientError StatusUnprocessableEntity
    | None =>
        if negb (MatchString isbnRegexp (ISBN bk))
        then clientError StatusBadRequest
        else if bool_decide (Title bk = "") || bool_decide (Author bk = "")
        then clientError StatusBadRequest
        else
          err ← putItem bk;
          match err with
          | Some e => serverError e
          | None =>
              mret (Response.Make 201
                      {[ "Location" := Sprintf_location (ISBN bk) ]} "", None)
          end
    end.

(** [func router(req events.APIGatewayProxyRequest)] *)
Definition router (req : Request.t) : Prog result :=
  if bool_decide (Request.HTTPMethod req = "GET") then show req
  else if bool_decide (Request.HTTPMethod req = "POST") then create req
  else clientError StatusMethodNotAllowed.

(** ** Running a handler

    The runtime answers the calls of a handler.  The persistence
    functions are whatever the deployment links in: any pair of
    functions over any state [S].  [main_go] is the file name the
    compiler recorded for [main.go].  Next to the state of the store the
    world keeps what was written to standard error, one entry per
    write, and the persistence calls made so far. *)

Inductive Call : Type :=
| CallGet (isbn : string)
| CallPut (bk : book).

Record World (S : Type) : Type := MkWorld {
  db : S;
  stderr : list string;
  calls : list Call;
}.

Arguments MkWorld {S} db stderr calls.
Arguments db {S} w.
Arguments stderr {S} w.
Arguments calls {S} w.

Section Runtime.

Context {S : Type}.
Variable getItem_impl : string → S → (option book * option error) * S.
Variable putItem_impl : book → S → option error * S.
Variable main_go : string.

Fixpoint run {A : Type} (p : Prog A) (w : World S) : A * World S :=
  match p with
  | Ret a => (a, w)
  | Call_getItem isbn k =>
      let '(r, s') := getItem_impl isbn (db w) in
      run (k r) (MkWorld s' (stderr w) (calls w ++ [CallGet isbn]))
  | Call_putItem bk k =>
      let '(r, s') := putItem_impl bk (db w) in
      run (k r) (MkWorld s' (stderr w) (calls w ++ [CallPut bk]))
  | Call_Println l line v k =>
      run k (MkWorld (db w) (stderr w ++ [Println_record l main_go line v])
               (calls w))
  end.

End Runtime.

(** ** An in-memory persistence collaborator *)

(** Modelled from the spec: [getItem] and [putItem], the persistence
    collaborator, whose file is not among the sources.  The
    specification gives [fetch(isbn) -> Record | Absent] and
    [store(record) -> Success], both failing with a storage error on a
    backend failure, records keyed uniquely by [isbn], the last write
    winning.  [fault] is the backend failure, when there is one. *)
Record MemStore : Type := MkMemStore {
  items : gmap string book;
  fault : option error;
}.

Definition mem_getItem (isbn : string) (m : MemStore)
  : (option book * option error) * MemStore :=
  match fault m with
  | Some e => ((None, Some e), m)
  | None => ((items m !! isbn, None), m)
  end.

Definition mem_putItem (bk : book) (m : MemStore) : option error * MemStore :=
  match fault m with
  | Some e => (Some e, m)
  | None => (None, MkMemStore (<[ISBN bk := bk]> (items m)) None)
  end.

Definition run_mem {A : Type} (p : Prog A) (w : World MemStore)
  : A * World MemStore :=
  run mem_getItem mem_putItem "/var/task/main.go" p w.

(** ** Vocabulary of the statements *)

Definition newline : string := String "010" "".

(** The record [serverError] writes for [e]: the prefix of
    [errorLogger], the place of the call, the cause. *)
Definition errorRecord (main_go : string) (e : error) : string :=
  "ERROR " +:+ main_go +:+ ":100: " +:+ Error e +:+ newline.

Definition response400 : result :=
  (Response.Make 400 ∅ "Bad Request", None).
Definition response404 : result :=
  (Response.Make 404 ∅ "Not Found", None).
Definition response405 : result :=
  (Response.Make 405 ∅ "Method Not Allowed", None).
Definition response406 : result :=
  (Response.Make 406 ∅ "Not Acceptable", None).
Definition response422 : result :=
  (Response.Make 422 ∅ "Unprocessable Entity", None).
Definition response500 : result :=
  (Response.Make 500 ∅ "Internal Server Error", None).

Definition jsonContentType (req : Request.t) : Prop :=
  index (Request.Headers req) "Content-Type" = "application/json".

Definition validBook (bk : book) : Prop :=
  MatchString isbnRegexp (ISBN bk) = true ∧ Title bk ≠ "" ∧ Author bk ≠ "".


(** What a request adds to the list of persistence calls. *)
Definition validCall (c : Call) : Prop :=
  match c with
  | CallGet _ => True
  | CallPut bk => validBook bk
  end.

Definition producedStatus : list Z := [200; 201; 400; 404; 405; 406; 422; 500]%Z.

(** ** Sample requests and worlds *)

Definition jsonHeaders : gmap string string :=
  {[ "Content-Type" := "application/json" ]}.

Definition samplePost : Request.t :=
  Request.Make "/books" "POST" jsonHeaders ∅
    (dq "{'isbn':'123-4567890123','title':'Emma','author':'Jane Austen'}").

Definition sampleBook : book := Book "123-4567890123" "Emma" "Jane Austen".

Definition sampleGet : Request.t :=
  Request.Make "/books" "GET" ∅ {[ "isbn" := "123-4567890123" ]} "".

Definition emptyWorld : World MemStore := MkWorld (MkMemStore ∅ None) [] [].

Definition brokenWorld : World MemStore :=
  MkWorld (MkMemStore ∅ (Some (errorString "connection refused"))) [] [].

(** ** Well-formed UTF-8 *)

(** A Unicode scalar value: at most [MaxRune] and not a surrogate. *)
Definition validRune (r : N) : bool := (r <=? MaxRune)%N && negb (isSurrogate r).

(** A string that is a sequence of encoded scalar values, either an
    ASCII byte or the encoding of a scalar value from 128 on. *)
Inductive wfUTF8 : string → Prop :=
| wf_empty : wfUTF8 ""
| wf_ascii (c : ascii) (s : string) :
    (byte_of c <? 128)%N = true → wfUTF8 s → wfUTF8 (String c s)
| wf_multi (r : N) (s : string) :
    (128 <=? r)%N = true → validRune r = true → wfUTF8 s →
    wfUTF8 (EncodeRune r +:+ s).

Definition wfBook (bk : book) : Prop :=
  wfUTF8 (ISBN bk) ∧ wfUTF8 (Title bk) ∧ wfUTF8 (Author bk).

(** [allBelow k f]: [f] holds of every number below [2 ^ k]. *)
Fixpoint allBelow (k : nat) (f : N → bool) : bool :=
  match k with
  | O => f 0%N
  | S k' => allBelow k' (λ n, f (2 * n)%N) && allBelow k' (λ n, f (2 * n + 1)%N)
  end.

Fixpoint allBytes (p : ascii → bool) (s : string) : bool :=
  match s with
  | EmptyString => true
  | String c rest => p c && allBytes p rest
  end.

Definition highByte (c : ascii) : bool := (128 <=? byte_of c)%N.

(** The encoding of [r] decodes to [r], and has no ASCII byte when
    [r] is not ASCII. *)
Definition runeOK (r : N) : bool :=
  negb (validRune r) ||
  (let e := EncodeRune r in
   let '(r', n) := DecodeRune e in
   (r' =? r)%N && (n =? String.length e)%nat
   && ((r <? 128)%N || allBytes highByte e)).

(** ** The text between the quotes of a string literal

    [stringBody st t]: read from the string state [st], the bytes of
    [t] stay inside the literal and leave the scanner between two
    items of it. *)
Fixpoint stringBody (st : scanStep) (t : string) : bool :=
  match t with
  | EmptyString =>
      match st with
      | stateInString => true
      | _ => false
      end
  | String c rest =>
      match st with
      | stateInString =>
          if isByte DQ c then false
          else if isByte BS c then stringBody stateInStringEsc rest
          else if (byte_of c <? 32)%N then false
          else stringBody stateInString rest
      | stateInStringEsc =>
          if isByte "b" c || isByte "f" c || isByte "n" c || isByte "r" c
             || isByte "t" c || isByte BS c || isByte "/" c || isByte DQ c
          then stringBody stateInString rest
          else if isByte "u" c then stringBody stateInStringEscU rest
          else false
      | stateInStringEscU =>
          if isHex c then stringBody stateInStringEscU1 rest else false
      | stateInStringEscU1 =>
          if isHex c then stringBody stateInStringEscU12 rest else false
      | stateInStringEscU12 =>
          if isHex c then stringBody stateInStringEscU123 rest else false
      | stateInStringEscU123 =>
          if isHex c then stringBody stateInString rest else false
      | _ => false
      end
  end.

(** What [appendString] writes for the ASCII byte [c], and for the
    scalar value [r] from 128 on. *)
Definition escapeASCII (c : ascii) : string :=
  match encodeItem (String c "") with
  | Some (out, _) => out
  | None => ""
  end.

Definition escapeMulti (r : N) : string :=
  if (r =? 0x2028)%N then "\u2028"
  else if (r =? 0x2029)%N then "\u2029"
  else EncodeRune r.

(** [escapes s t]: [t] is the text [appendString] puts between the
    quotes for the well-formed string [s]. *)
Inductive escapes : string → string → Prop :=
| esc_empty : escapes "" ""
| esc_ascii (c : ascii) (s t : string) :
    (byte_of c <? 128)%N = true → escapes s t →
    escapes (String c s) (escapeASCII c +:+ t)
| esc_multi (r : N) (s t : string) :
    (128 <=? r)%N = true → validRune r = true → escapes s t →
    escapes (EncodeRune r +:+ s) (escapeMulti r +:+ t).
(** ** Further sample inputs *)

Definition storedWorld : World MemStore :=
  MkWorld (MkMemStore {[ "123-4567890123" := sampleBook ]} None) [] [].

(** A record with a title outside ASCII: [Café]. *)
Definition accentedBook : book :=
  Book "123-4567890123" (String "C" (String "a" (String "f" (EncodeRune 233))))
    "Jane Austen".

Definition numberTitlePost : Request.t :=
  Request.Make "/books" "POST" jsonHeaders ∅
    (dq "{'isbn':'123-4567890123','title':5,'author':'Jane Austen'}").

Definition nullTitlePost : Request.t :=
  Request.Make "/books" "POST" jsonHeaders ∅
    (dq "{'isbn':'123-4567890123','title':null,'author':'Jane Austen'}").

(** ** Further vocabulary of the statements *)

(** The persistence calls one request may add: none, or one [getItem]
    of a GET request with the [isbn] parameter as it came, or one
    [putItem] of a POST request with the record parsed from its body. *)
Definition callsOfRequest (req : Request.t) (new : list Call) : Prop :=
  match new with
  | [] => True
  | [CallGet i] =>
      Request.HTTPMethod req = "GET" ∧
      i = index (Request.QueryStringParameters req) "isbn" ∧
      MatchString isbnRegexp i = true
  | [CallPut bk] =>
      Request.HTTPMethod req = "POST" ∧
      json_Unmarshal (Request.Body req) new_book = (bk, None)
  | _ => False
  end.

(** The three shapes a response has. *)
Definition responseShape (r : Response.t) : Prop :=
  (Response.StatusCode r = 200%Z ∧ Response.Headers r = ∅) ∨
  (Response.StatusCode r = 201%Z ∧ Response.Body r = "" ∧
   ∃ isbn : string,
     Response.Headers r = {[ "Location" := "/books?isbn=" +:+ isbn ]}) ∨
  (Response.StatusCode r ∈ [400; 404; 405; 406; 422; 500]%Z ∧
   Response.Headers r = ∅ ∧
   Response.Body r = StatusText (Response.StatusCode r)).

Definition wfCall (c : Call) : Prop :=
  match c with
  | CallGet _ => True
  | CallPut bk => wfBook bk
  end.

Global Instance field_eq_dec : EqDecision field.
Proof. solve_decision. Defined.

Definition getField (f : field) (bk : book) : string :=
  match f with
  | fieldISBN => ISBN bk
  | fieldTitle => Title bk
  | fieldAuthor => Author bk
  end.

(** The field the key of an object member selects, if any. *)
Definition memberField (m : string * json) : option field :=
  match unquote m.1 with
  | Some key => fieldByName key
  | None => None
  end.

(** The member gives field [f] a value: its key selects [f] and its
    value is a string. *)
Definition setsField (f : field) (m : string * json) : bool :=
  bool_decide (memberField m = Some f) &&
  match m.2 with
  | JString _ => true
  | _ => false
  end.

(** The member has the key of a field and a value that is neither a
    string nor [null]. *)
Definition typeMismatch (m : string * json) : bool :=
  match memberField m, m.2 with
  | Some _, (JBool _ | JNumber _ | JArray _ | JObject _) => true
  | _, _ => false
  end.

(** What [appendString] writes for a byte that is not part of a valid
    UTF-8 sequence. *)
Definition replacementEscape : string := "\ufffd".

(** ** Facts about the pattern matcher *)

Lemma sapp_nil (b : string) : "" +:+ b = b.
Proof. reflexivity. Qed.

Lemma sapp_nil_r (a : string) : a +:+ "" = a.
Proof. induction a as [|x a IH]; [done |]. by rewrite <- IH at 2. Qed.

Lemma sapp_cons (c : ascii) (a b : string) :
  String c a +:+ b = String c (a +:+ b).
Proof. reflexivity. Qed.

Lemma sapp_assoc (a b c : string) : (a +:+ b) +:+ c = a +:+ (b +:+ c).
Proof.
  induction a as [|x a IH]; [done |].
  by rewrite !sapp_cons, IH.
Qed.

Lemma repeat_digits_spec (n : nat) (s r : string) :
  matchPrefix (Repeat (CharRange "0" "9") n) s = Some r ↔
  ∃ a : string, s = a +:+ r ∧ String.length a = n ∧ allDigits a = true.
Proof.
  revert s. induction n as [|n IH]; intros s.
  - simpl. split.
    + intros [= ->]. by exists "".
    + intros (a & -> & Hl & _). destruct a; [done | discriminate].
  - change (matchPrefix (Repeat (CharRange "0" "9") (S n)) s)
      with (match matchPrefix (CharRange "0" "9") s with
            | Some t' => matchPrefix (Repeat (CharRange "0" "9") n) t'
            | None => None
            end).
    split.
    + destruct s as [|c s]; simpl; [done |].
      destruct (inRange "0" "9" c) eqn:Hc; [| done].
      intros H. apply IH in H as (a & -> & Hl & Hd).
      exists (String c a). rewrite sapp_cons. simpl.
      unfold isDigit. rewrite Hc, Hd, Hl. done.
    + intros (a & -> & Hl & Hd).
      destruct a as [|c a]; [discriminate |].
      rewrite sapp_cons. simpl in Hl, Hd |- *. unfold isDigit in Hd.
      destruct (inRange "0" "9" c); [| done].
      apply IH. exists a. split_and!; [done | lia | done].
Qed.

Lemma matchPrefix_Concat (r1 r2 : regex) (s : string) :
  matchPrefix (Concat r1 r2) s =
  match matchPrefix r1 s with
  | Some s' => matchPrefix r2 s'
  | None => None
  end.
Proof. reflexivity. Qed.

Lemma matchPrefix_Char (c0 : ascii) (s r : string) :
  matchPrefix (Char c0) s = Some r ↔ s = String c0 r.
Proof.
  destruct s as [|c s]; simpl; [done |].
  destruct (Ascii.eqb c0 c) eqn:Hc.
  - apply Ascii.eqb_eq in Hc as ->. split; congruence.
  - apply Ascii.eqb_neq in Hc. split; [done | congruence].
Qed.

Lemma matchPrefix_isbn_spec (s r : string) :
  matchPrefix isbnRegexp s = Some r ↔
  ∃ m : string, s = m +:+ r ∧ spec_isbn_shape m.
Proof.
  unfold isbnRegexp. rewrite matchPrefix_Concat.
  split.
  - destruct (matchPrefix (Repeat _ 3) s) as [s1|] eqn:H1; [| done].
    apply repeat_digits_spec in H1 as (a & -> & Hla & Hda).
    rewrite matchPrefix_Concat.
    destruct (matchPrefix (Char "-") s1) as [s2|] eqn:H2; [| done].
    apply matchPrefix_Char in H2 as ->.
    intros H3. apply repeat_digits_spec in H3 as (b & -> & Hlb & Hdb).
    exists (a +:+ "-" +:+ b). split.
    + by rewrite !sapp_assoc.
    + by exists a, b.
  - intros (m & -> & a & b & -> & Hla & Hda & Hlb & Hdb).
    assert (H1 : matchPrefix (Repeat (CharRange "0" "9") 3)
                   ((a +:+ "-" +:+ b) +:+ r) = Some ("-" +:+ b +:+ r)).
    { apply repeat_digits_spec. exists a. by rewrite !sapp_assoc. }
    rewrite H1, matchPrefix_Concat.
    assert (H2 : matchPrefix (Char "-") ("-" +:+ b +:+ r) = Some (b +:+ r)).
    { by apply matchPrefix_Char. }
    rewrite H2. apply repeat_digits_spec. by exists b.
Qed.

Lemma MatchString_isbn_spec (s : string) :
  MatchString isbnRegexp s = true ↔ spec_contains_isbn s.
Proof.
  induction s as [|c s IH].
  - simpl. split; [done |].
    intros (pre & m & post & Heq & a & b & -> & Hla & _).
    destruct pre; [| done]. destruct a; done.
  - cbn [MatchString].
    destruct (matchPrefix isbnRegexp (String c s)) as [r|] eqn:Hm.
    + split; [intros _ | done].
      apply matchPrefix_isbn_spec in Hm as (m & Heq & Hshape).
      by exists "", m, r.
    + rewrite IH. split.
      * intros (pre & m & post & -> & Hshape).
        by exists (String c pre), m, post.
      * intros (pre & m & post & Heq & Hshape).
        destruct pre as [|c' pre].
        -- rewrite sapp_nil in Heq.
           assert (matchPrefix isbnRegexp (String c s) = Some post) as Hx.
           { apply matchPrefix_isbn_spec. by exists m. }
           congruence.
        -- rewrite sapp_cons in Heq. injection Heq as -> ->.
           by exists pre, m, post.
Qed.

(** C1: the validator accepts exactly the strings that contain three
    digits, a hyphen and ten digits as a contiguous substring; the
    three sample strings of the specification behave as listed. *)
Theorem isbn_validator_substring_semantics :
  (∀ s : string, MatchString isbnRegexp s = true ↔ spec_contains_isbn s) ∧
  MatchString isbnRegexp "123-4567890123" = true ∧
  MatchString isbnRegexp "12-4567890123" = false ∧
  MatchString isbnRegexp "xx123-4567890123xx" = true.
Proof.
  split; [exact MatchString_isbn_spec |].
  split_and!; reflexivity.
Qed.

(** ** Facts about UTF-8 *)

Ltac nlia := zify; Z.to_euclidean_division_equations; lia.

Lemma allBelow_spec (k : nat) (f : N → bool) :
  allBelow k f = true → ∀ n : N, (n < 2 ^ N.of_nat k)%N → f n = true.
Proof.
  revert f. induction k as [|k IH]; intros f H n Hn.
  - cbn in Hn. assert (n = 0%N) as -> by lia. exact H.
  - cbn [allBelow] in H. apply andb_true_iff in H as [H0 H1].
    rewrite Nat2N.inj_succ, N.pow_succ_r' in Hn.
    destruct (N.even n) eqn:He.
    + apply N.even_spec in He as [m ->].
      apply (IH _ H0 m). lia.
    + assert (N.odd n = true) as Ho.
      { rewrite <- N.negb_even. by rewrite He. }
      apply N.odd_spec in Ho as [m ->].
      apply (IH _ H1 m). lia.
Qed.

Lemma runes_below_65536_ok : allBelow 16 runeOK = true.
Proof. vm_compute. reflexivity. Qed.

Lemma lor_disjoint (m b n : N) :
  (m mod 2 ^ n = 0)%N → (b < 2 ^ n)%N → N.lor m b = (m + b)%N.
Proof.
  intros Hm Hb.
  assert (N.land m b = 0%N) as Hland.
  { apply N.bits_inj. intros i. rewrite N.land_spec, N.bits_0.
    destruct (N.lt_ge_cases i n) as [Hi|Hi].
    - assert (m = (m / 2 ^ n) * 2 ^ n)%N as ->.
      { pose proof (N.div_mod m (2 ^ n)) as Hd.
        rewrite Hm, N.add_0_r, N.mul_comm in Hd. apply Hd.
        apply N.pow_nonzero. lia. }
      by rewrite N.mul_pow2_bits_low.
    - destruct (decide (b = 0%N)) as [->|Hb0].
      { by rewrite N.bits_0, andb_false_r. }
      rewrite (N.bits_above_log2 b i), andb_false_r; [done |].
      apply N.log2_lt_pow2; [lia |].
      eapply N.lt_le_trans; [exact Hb |].
      apply N.pow_le_mono_r; lia. }
  rewrite <- N.lxor_lor by done. symmetry. by apply N.add_nocarry_lxor.
Qed.

Lemma byte_of_chr (n : N) : (n < 256)%N → byte_of (chr n) = n.
Proof. apply N_ascii_embedding. Qed.

Lemma chr_byte_of (c : ascii) : chr (byte_of c) = c.
Proof. apply ascii_N_embedding. Qed.

Ltac ncases :=
  repeat match goal with
    | |- context [N.leb ?a ?b] => destruct (N.leb_spec a b); try nlia
    | |- context [N.ltb ?a ?b] => destruct (N.ltb_spec a b); try nlia
    | |- context [N.eqb ?a ?b] => destruct (N.eqb_spec a b); try nlia
    end;
  cbn [andb orb negb].

Lemma EncodeRune_four (r : N) :
  (0x10000 <= r)%N → (r <= 0x10FFFF)%N →
  EncodeRune r =
  String (chr (240 + r / 2 ^ 18))
    (String (chr (128 + (r / 2 ^ 12) mod 2 ^ 6))
       (String (chr (128 + (r / 2 ^ 6) mod 2 ^ 6))
          (String (chr (128 + r mod 2 ^ 6)) ""))).
Proof.
  intros Hlo Hhi. unfold EncodeRune, isSurrogate, MaxRune.
  ncases.
  rewrite !N.shiftr_div_pow2.
  change 63%N with (N.ones 6). rewrite !N.land_ones.
  rewrite (lor_disjoint 240 _ 3) by (try reflexivity; nlia).
  rewrite !(lor_disjoint 128 _ 6) by (try reflexivity; nlia).
  reflexivity.
Qed.

Lemma decode_four_value (r : N) :
  (r <= 0x10FFFF)%N →
  N.lor
    (N.lor
       (N.lor (N.shiftl (N.land (240 + r / 2 ^ 18) 7) 18)
              (N.shiftl (N.land (128 + (r / 2 ^ 12) mod 2 ^ 6) 63) 12))
       (N.shiftl (N.land (128 + (r / 2 ^ 6) mod 2 ^ 6) 63) 6))
    (N.land (128 + r mod 2 ^ 6) 63) = r.
Proof.
  intros Hhi.
  change 7%N with (N.ones 3). change 63%N with (N.ones 6).
  rewrite !N.land_ones, !N.shiftl_mul_pow2.
  rewrite (lor_disjoint (_ * 2 ^ 18) (_ * 2 ^ 12) 18) by nlia.
  rewrite (lor_disjoint (_ + _) (_ * 2 ^ 6) 12) by nlia.
  rewrite (lor_disjoint _ _ 6) by nlia.
  nlia.
Qed.

Lemma DecodeRune_four (r : N) (s : string) :
  (0x10000 <= r)%N → (r <= 0x10FFFF)%N →
  DecodeRune (EncodeRune r +:+ s) = (r, 4).
Proof.
  intros Hlo Hhi. rewrite EncodeRune_four by done.
  rewrite !sapp_cons, sapp_nil. unfold DecodeRune.
  rewrite !byte_of_chr by nlia.
  unfold acceptRange, isCont, RuneSelf.
  ncases; cbn beta iota; ncases; cbn beta iota.
  all: cbn [Nat.eqb]; by rewrite decode_four_value.
Qed.

Lemma DecodeRune_app (e s : string) (r : N) :
  DecodeRune e = (r, String.length e) →
  r ≠ RuneError ∨ 2 ≤ String.length e →
  DecodeRune (e +:+ s) = (r, String.length e).
Proof.
  intros H Hc.
  destruct e as [|c0 [|c1 [|c2 [|c3 e']]]];
    cbn [String.length] in *; rewrite ?sapp_cons, ?sapp_nil;
    unfold DecodeRune in *;
    repeat (case_match; simplify_eq; try done; try lia).
Qed.

Lemma runeOK_small (r : N) : (r < 65536)%N → runeOK r = true.
Proof. intros H. by apply (allBelow_spec 16 _ runes_below_65536_ok). Qed.

Lemma validRune_bound (r : N) : validRune r = true → (r <= 0x10FFFF)%N.
Proof.
  unfold validRune, MaxRune. intros [H _]%andb_true_iff.
  by apply N.leb_le in H.
Qed.

Lemma EncodeRune_high (r : N) :
  (128 <=? r)%N = true → validRune r = true →
  allBytes highByte (EncodeRune r) = true ∧ 2 ≤ String.length (EncodeRune r).
Proof.
  intros Hr Hv. apply N.leb_le in Hr.
  destruct (N.lt_ge_cases r 65536) as [Hs|Hs].
  - pose proof (runeOK_small r Hs) as Hok. unfold runeOK in Hok.
    rewrite Hv in Hok. cbn [negb orb] in Hok.
    destruct (DecodeRune (EncodeRune r)) as [r' n].
    apply andb_true_iff in Hok as [_ Hb].
    apply orb_true_iff in Hb as [Hb|Hb]; [apply N.ltb_lt in Hb; lia |].
    split; [done |].
    unfold EncodeRune. unfold validRune in Hv.
    apply andb_true_iff in Hv as [_ Hv]. rewrite negb_true_iff in Hv.
    rewrite Hv, orb_false_r.
    repeat case_match; cbn; try lia.
    apply N.leb_le in H. lia.
  - pose proof (validRune_bound r Hv) as Hhi.
    rewrite EncodeRune_four by done. unfold highByte. cbn [allBytes String.length].
    rewrite !byte_of_chr by nlia.
    split; [| lia].
    repeat (apply andb_true_intro; split); try done; apply N.leb_le; nlia.
Qed.

Lemma DecodeRune_EncodeRune (r : N) (s : string) :
  (128 <=? r)%N = true → validRune r = true →
  DecodeRune (EncodeRune r +:+ s) = (r, String.length (EncodeRune r)).
Proof.
  intros Hr Hv.
  destruct (N.lt_ge_cases r 65536) as [Hs|Hs].
  - pose proof (runeOK_small r Hs) as Hok. unfold runeOK in Hok.
    rewrite Hv in Hok. cbn [negb orb] in Hok.
    destruct (DecodeRune (EncodeRune r)) as [r' n] eqn:Hd.
    apply andb_true_iff in Hok as [Hok _].
    apply andb_true_iff in Hok as [H1 H2].
    apply N.eqb_eq in H1 as ->. apply Nat.eqb_eq in H2 as ->.
    apply DecodeRune_app; [done |].
    right. by apply EncodeRune_high.
  - pose proof (validRune_bound r Hv) as Hhi.
    rewrite DecodeRune_four by done.
    by rewrite EncodeRune_four.
Qed.

(** ** Facts about the JSON codec *)

Lemma itemPass_skip (item : string → option (string * nat)) (x rest : string) :
  itemPass item (String.length x) (x +:+ rest) = itemPass item 0 rest.
Proof.
  induction x as [|c x IH]; [done |].
  rewrite sapp_cons. cbn [String.length itemPass]. exact IH.
Qed.

Lemma itemPass_item (item : string → option (string * nat))
    (x rest out : string) :
  x ≠ "" →
  item (x +:+ rest) = Some (out, String.length x) →
  itemPass item 0 (x +:+ rest)
  = match itemPass item 0 rest with
    | Some t => Some (out +:+ t)
    | None => None
    end.
Proof.
  intros Hx Hi. destruct x as [|c x]; [done |].
  rewrite sapp_cons in *. cbn [itemPass]. rewrite Hi.
  cbn [String.length Nat.pred]. by rewrite itemPass_skip.
Qed.

Lemma itemPass_total (item : string → option (string * nat)) :
  (∀ (c : ascii) (s : string), is_Some (item (String c s))) →
  ∀ (s : string) (k : nat), is_Some (itemPass item k s).
Proof.
  intros Hitem. induction s as [|c s IH]; intros k; [by eexists |].
  cbn [itemPass]. destruct k as [|k]; [| apply IH].
  destruct (Hitem c s) as [[out w] ->].
  destruct (IH (Nat.pred w)) as [t ->]. by eexists.
Qed.

(** The passes of [appendString] and [foldName] never abort. *)
Lemma encode_total (s : string) : is_Some (itemPass encodeItem 0 s).
Proof.
  apply itemPass_total. intros c s'. unfold encodeItem.
  repeat case_match; by eexists.
Qed.

Lemma foldName_total (s : string) : is_Some (itemPass foldItem 0 s).
Proof.
  apply itemPass_total. intros c s'. unfold foldItem.
  repeat case_match; by eexists.
Qed.

Lemma scanBytes_app (s : scanner) (a b : string) :
  scanBytes s (a +:+ b) = scanBytes (scanBytes s a) b.
Proof.
  revert s. induction a as [|c a IH]; intros s; [done |].
  rewrite sapp_cons. cbn [scanBytes]. apply IH.
Qed.

Lemma snoc_app (acc : string) (c : ascii) (t : string) :
  snoc acc c +:+ t = acc +:+ String c t.
Proof. unfold snoc. by rewrite sapp_assoc. Qed.

Lemma scan_stringBody (t : string) :
  ∀ (st : scanStep) (ps : list frame) (acc : string) (tp : option json),
    stringBody st t = true →
    scanBytes (Scanner st ps acc tp) t = Scanner stateInString ps (acc +:+ t) tp.
Proof.
  induction t as [|c t IH]; intros st ps acc tp H.
  - destruct st; try discriminate. by rewrite sapp_nil_r.
  - cbn [scanBytes]. rewrite <- snoc_app.
    destruct st; try discriminate; cbn [stringBody] in H;
      unfold scanByte; cbn [step];
      unfold do_InString, do_InStringEsc, do_Hex, more; cbn [parseState lit top];
      repeat match type of H with
        | (if ?b then _ else _) = true => destruct b; try discriminate
        end;
      by apply IH.
Qed.

Lemma stringBody_app (a b : string) (st : scanStep) :
  stringBody st a = true → stringBody stateInString b = true →
  stringBody st (a +:+ b) = true.
Proof.
  revert st. induction a as [|c a IH]; intros st Ha Hb.
  - destruct st; try discriminate. exact Hb.
  - rewrite sapp_cons.
    destruct st; try discriminate; cbn [stringBody] in Ha |- *;
      repeat match type of Ha with
        | (if ?b then _ else _) = true => destruct b; try discriminate
        end;
      by apply IH.
Qed.

Lemma takeS_app (e s : string) : takeS (String.length e) (e +:+ s) = e.
Proof.
  induction e as [|c e IH]; [by destruct s |].
  rewrite sapp_cons. cbn [String.length takeS]. by rewrite IH.
Qed.

Lemma highByte_not (x c : ascii) :
  (byte_of x <? 128)%N = true → highByte c = true → isByte x c = false.
Proof.
  intros Hx Hc. unfold isByte. destruct (Ascii.eqb c x) eqn:E; [| done].
  apply Ascii.eqb_eq in E as ->. unfold highByte in Hc.
  apply N.ltb_lt in Hx. apply N.leb_le in Hc. lia.
Qed.

Lemma stringBody_high (e : string) :
  allBytes highByte e = true → stringBody stateInString e = true.
Proof.
  induction e as [|c e IH]; [done |].
  cbn [allBytes stringBody]. intros [Hc He]%andb_true_iff.
  rewrite !(highByte_not _ c) by done.
  unfold highByte in Hc. apply N.leb_le in Hc.
  destruct (N.ltb_spec (byte_of c) 32); [lia |]. by apply IH.
Qed.

(** *** One ASCII byte *)

Lemma encodeItem_ascii (c : ascii) (s : string) :
  (byte_of c <? 128)%N = true →
  encodeItem (String c s) = Some (escapeASCII c, 1).
Proof.
  intros H. unfold escapeASCII, encodeItem, RuneSelf. rewrite H.
  repeat case_match; simplify_eq; done.
Qed.

Lemma escapeASCII_body (c : ascii) :
  (byte_of c <? 128)%N = true →
  stringBody stateInString (escapeASCII c) = true.
Proof.
  destruct c as [[] [] [] [] [] [] [] []]; intros H;
    first [discriminate H | vm_compute; reflexivity].
Qed.

Lemma unquoteItem_ascii (c : ascii) (t : string) :
  (byte_of c <? 128)%N = true →
  unquoteItem (escapeASCII c +:+ t)
  = Some (String c "", String.length (escapeASCII c)) ∧
  escapeASCII c ≠ "".
Proof.
  destruct c as [[] [] [] [] [] [] [] []]; intros H;
    first [discriminate H | split; [reflexivity | discriminate]].
Qed.

(** *** One scalar value from 128 on *)

Lemma EncodeRune_head (r : N) :
  (128 <=? r)%N = true → validRune r = true →
  ∃ (c : ascii) (e : string),
    EncodeRune r = String c e ∧ highByte c = true ∧
    1 ≤ String.length e.
Proof.
  intros Hr Hv. destruct (EncodeRune_high r Hr Hv) as [Hb Hl].
  destruct (EncodeRune r) as [|c e]; [cbn in Hl; lia |].
  exists c, e. cbn in Hb, Hl. apply andb_true_iff in Hb as [Hc _].
  split_and!; [done | done | lia].
Qed.

Lemma encodeItem_multi (r : N) (s : string) :
  (128 <=? r)%N = true → validRune r = true →
  encodeItem (EncodeRune r +:+ s)
  = Some (escapeMulti r, String.length (EncodeRune r)).
Proof.
  intros Hr Hv.
  pose proof (DecodeRune_EncodeRune r s Hr Hv) as Hd.
  pose proof (takeS_app (EncodeRune r) s) as Ht.
  destruct (EncodeRune_head r Hr Hv) as (c & e & He & Hc & Hl).
  rewrite He in *. rewrite sapp_cons in *.
  unfold encodeItem, RuneSelf. unfold highByte in Hc. apply N.leb_le in Hc.
  destruct (N.ltb_spec (byte_of c) 128); [lia |].
  rewrite Hd. cbn [String.length] in *.
  destruct (String.length e) as [|n]; [lia |].
  cbn [Nat.eqb]. rewrite andb_false_r.
  unfold escapeMulti.
  destruct (N.eqb_spec r 0x2028) as [->|_]; [done |].
  destruct (N.eqb_spec r 0x2029) as [->|_]; [done |].
  cbn [orb]. by rewrite Ht, He.
Qed.

Lemma escapeMulti_body (r : N) :
  (128 <=? r)%N = true → validRune r = true →
  stringBody stateInString (escapeMulti r) = true.
Proof.
  intros Hr Hv. unfold escapeMulti.
  destruct (N.eqb_spec r 0x2028); [done |].
  destruct (N.eqb_spec r 0x2029); [done |].
  apply stringBody_high. by apply EncodeRune_high.
Qed.

Lemma unquoteItem_multi (r : N) (t : string) :
  (128 <=? r)%N = true → validRune r = true →
  unquoteItem (escapeMulti r +:+ t)
  = Some (EncodeRune r, String.length (escapeMulti r)) ∧
  escapeMulti r ≠ "".
Proof.
  intros Hr Hv. unfold escapeMulti.
  destruct (N.eqb_spec r 0x2028) as [->|_]; [done |].
  destruct (N.eqb_spec r 0x2029) as [->|_]; [done |].
  pose proof (DecodeRune_EncodeRune r t Hr Hv) as Hd.
  destruct (EncodeRune_head r Hr Hv) as (c & e & He & Hc & Hl).
  rewrite He in *. rewrite sapp_cons in *. split; [| done].
  unfold unquoteItem, RuneSelf.
  rewrite !(highByte_not _ c) by done.
  unfold highByte in Hc. apply N.leb_le in Hc.
  destruct (N.ltb_spec (byte_of c) 32); [lia |].
  destruct (N.ltb_spec (byte_of c) 128); [lia |].
  cbn [orb]. rewrite Hd. by rewrite He.
Qed.

(** *** Whole strings *)

Lemma escapes_sound (s t : string) :
  escapes s t →
  itemPass encodeItem 0 s = Some t ∧
  stringBody stateInString t = true ∧
  unquote t = Some s.
Proof.
  unfold unquote.
  induction 1 as [|c s t Hc _ (IH1 & IH2 & IH3)|r s t Hr Hv _ (IH1 & IH2 & IH3)].
  - done.
  - destruct (unquoteItem_ascii c t Hc) as [Hu Hne].
    split_and!.
    + cbn [itemPass]. rewrite encodeItem_ascii by done.
      cbn [Nat.pred]. by rewrite IH1.
    + apply stringBody_app; [by apply escapeASCII_body | done].
    + rewrite (itemPass_item _ _ _ _ Hne Hu). by rewrite IH3.
  - destruct (unquoteItem_multi r t Hr Hv) as [Hu Hne].
    destruct (EncodeRune_head r Hr Hv) as (c & e & He & _ & _).
    split_and!.
    + rewrite (itemPass_item _ (EncodeRune r) s (escapeMulti r)).
      * by rewrite IH1.
      * by rewrite He.
      * by apply encodeItem_multi.
    + apply stringBody_app; [by apply escapeMulti_body | done].
    + rewrite (itemPass_item _ _ _ _ Hne Hu). by rewrite IH3.
Qed.

Lemma wfUTF8_escapes (s : string) : wfUTF8 s → ∃ t : string, escapes s t.
Proof.
  induction 1 as [|c s Hc _ [t IH]|r s Hr Hv _ [t IH]].
  - exists "". constructor.
  - exists (escapeASCII c +:+ t). by constructor.
  - exists (escapeMulti r +:+ t). by constructor.
Qed.

(** *** What [unquote] returns is well-formed *)

Lemma wfUTF8_app (a b : string) : wfUTF8 a → wfUTF8 b → wfUTF8 (a +:+ b).
Proof.
  induction 1 as [|c s Hc _ IH|r s Hr Hv _ IH]; intros Hb.
  - done.
  - rewrite sapp_cons. constructor; auto.
  - rewrite sapp_assoc. constructor; auto.
Qed.

Lemma wfUTF8_byte (c : ascii) : (byte_of c <? 128)%N = true → wfUTF8 (String c "").
Proof. intros H. constructor; [done | constructor]. Qed.

Lemma wfUTF8_EncodeRune (x : N) : wfUTF8 (EncodeRune x).
Proof.
  destruct (N.leb_spec x 0x7F) as [Hx|Hx].
  - unfold EncodeRune. destruct (N.leb_spec x 0x7F); [| lia].
    apply wfUTF8_byte. rewrite byte_of_chr by lia. apply N.ltb_lt. lia.
  - destruct (validRune x) eqn:Hv.
    + rewrite <- (sapp_nil_r (EncodeRune x)).
      constructor; [apply N.leb_le; lia | done | constructor].
    + assert (EncodeRune x = EncodeRune RuneError) as ->.
      { transitivity (String (chr 239) (String (chr 191) (String (chr 189) "")));
          [| reflexivity].
        unfold validRune, isSurrogate, MaxRune in Hv.
        unfold EncodeRune, isSurrogate, MaxRune.
        destruct (N.leb_spec x 0x7F); [lia |].
        destruct (N.leb_spec x 0x7FF).
        { exfalso. revert Hv. by ncases. }
        revert Hv. ncases; intros Hv; try discriminate; reflexivity. }
      rewrite <- (sapp_nil_r (EncodeRune RuneError)).
      constructor; [done | done | constructor].
Qed.

Lemma isByte_eq (x c : ascii) : isByte x c = true → c = x.
Proof. unfold isByte. apply Ascii.eqb_eq. Qed.

Lemma plainEscape_ascii (e : ascii) :
  isByte DQ e || isByte BS e || isByte "/" e || isByte "'" e = true →
  (byte_of e <? 128)%N = true.
Proof.
  rewrite !orb_true_iff. intros [[[H|H]|H]|H]; apply isByte_eq in H; by subst.
Qed.

Lemma unquoteItem_wf (s out : string) (w : nat) :
  unquoteItem s = Some (out, w) → wfUTF8 out.
Proof.
  unfold unquoteItem. intros H.
  repeat case_match; simplify_eq;
    try apply wfUTF8_EncodeRune;
    try (apply wfUTF8_byte; assumption);
    try (apply wfUTF8_byte; reflexivity).
  apply wfUTF8_byte. by apply plainEscape_ascii.
Qed.

Lemma unquote_wf (raw v : string) : unquote raw = Some v → wfUTF8 v.
Proof.
  unfold unquote. generalize 0. revert v.
  induction raw as [|c raw IH]; intros v k H.
  - cbn in H. simplify_eq. constructor.
  - cbn [itemPass] in H. destruct k as [|k]; [| by eapply IH].
    destruct (unquoteItem (String c raw)) as [[out w]|] eqn:Hi; [| done].
    destruct (itemPass unquoteItem (Nat.pred w) raw) as [t|] eqn:Ht; [| done].
    simplify_eq. apply wfUTF8_app; [by eapply unquoteItem_wf | by eapply IH].
Qed.

Lemma setField_wf (f : field) (v : string) (bk : book) :
  wfUTF8 v → wfBook bk → wfBook (setField f v bk).
Proof.
  intros Hv (H1 & H2 & H3). destruct f; cbn; by split_and!.
Qed.

Lemma decodeMember_wf (st : book * option UnmarshalError) (m : string * json) :
  wfBook st.1 → wfBook (decodeMember st m).1.
Proof.
  destruct st as [bk saved]. cbn [fst]. intros H. unfold decodeMember.
  repeat case_match; simplify_eq; cbn [fst]; try assumption.
  apply setField_wf; [by eapply unquote_wf | done].
Qed.

Lemma decodeMembers_wf (ms : list (string * json))
    (st : book * option UnmarshalError) :
  wfBook st.1 → wfBook (fold_left decodeMember ms st).1.
Proof.
  revert st. induction ms as [|m ms IH]; intros st Hst; [done |].
  cbn [fold_left]. apply IH. by apply decodeMember_wf.
Qed.

Lemma json_Unmarshal_wf (data : string) :
  wfBook (json_Unmarshal data new_book).1.
Proof.
  assert (wfBook new_book) as H0 by (split_and!; constructor).
  unfold json_Unmarshal.
  repeat case_match; simplify_eq; cbn [fst]; try assumption.
  by apply decodeMembers_wf.
Qed.

(** *** Decoding what [json.Marshal] wrote *)

Lemma appendString_escapes (s t : string) :
  escapes s t → appendString s = String DQ (t +:+ String DQ "").
Proof.
  intros (H & _ & _)%escapes_sound. unfold appendString. by rewrite H.
Qed.

Lemma quoted_app (t rest : string) :
  String DQ (t +:+ String DQ "") +:+ rest = String DQ (t +:+ String DQ rest).
Proof. by rewrite sapp_cons, sapp_assoc, sapp_cons, sapp_nil. Qed.

Lemma json_Marshal_text (bk : book) (tI tT tA : string) :
  escapes (ISBN bk) tI → escapes (Title bk) tT → escapes (Author bk) tA →
  (json_Marshal bk).1
  = dq "{'isbn':'" +:+ tI +:+ dq "','title':'" +:+ tT +:+
    dq "','author':'" +:+ tA +:+ dq "'}".
Proof.
  intros HI HT HA. unfold json_Marshal. cbn [fst].
  rewrite (appendString_escapes _ _ HI), (appendString_escapes _ _ HT),
    (appendString_escapes _ _ HA).
  rewrite !quoted_app. reflexivity.
Qed.

Lemma scan_after_isbn (acc : string) :
  scanBytes (Scanner stateInString [parseObjectValue [] "isbn"] acc None)
    (dq "','title':'")
  = Scanner stateInString
      [parseObjectValue [("isbn", JString acc)] "title"] "" None.
Proof. reflexivity. Qed.

Lemma scan_after_title (m : list (string * json)) (acc : string) :
  scanBytes (Scanner stateInString [parseObjectValue m "title"] acc None)
    (dq "','author':'")
  = Scanner stateInString
      [parseObjectValue (m ++ [("title", JString acc)]) "author"] "" None.
Proof. reflexivity. Qed.

Lemma scan_after_author (m : list (string * json)) (acc : string) :
  eof (scanBytes (Scanner stateInString [parseObjectValue m "author"] acc None)
         (dq "'}"))
  = Some (JObject (m ++ [("author", JString acc)])).
Proof. reflexivity. Qed.

Lemma scanJSON_marshalled (tI tT tA : string) :
  stringBody stateInString tI = true →
  stringBody stateInString tT = true →
  stringBody stateInString tA = true →
  scanJSON (dq "{'isbn':'" +:+ tI +:+ dq "','title':'" +:+ tT +:+
            dq "','author':'" +:+ tA +:+ dq "'}")
  = Some (JObject [("isbn", JString tI); ("title", JString tT);
                   ("author", JString tA)]).
Proof.
  intros HI HT HA. unfold scanJSON.
  rewrite scanBytes_app.
  change (scanBytes (Scanner stateBeginValue [] "" None) (dq "{'isbn':'"))
    with (Scanner stateInString [parseObjectValue [] "isbn"] "" None).
  rewrite scanBytes_app, (scan_stringBody tI) by done.
  rewrite scanBytes_app, scan_after_isbn.
  rewrite scanBytes_app, (scan_stringBody tT) by done.
  rewrite scanBytes_app, scan_after_title.
  rewrite scanBytes_app, (scan_stringBody tA) by done.
  rewrite scan_after_author. by rewrite !sapp_nil.
Qed.

Lemma decodeMember_string (bk : book) (saved : option UnmarshalError)
    (name raw v : string) (f : field) :
  unquote name = Some name → fieldByName name = Some f →
  unquote raw = Some v →
  decodeMember (bk, saved) (name, JString raw) = (setField f v bk, saved).
Proof.
  intros Hk Hf Hv. unfold decodeMember. cbn [fst snd].
  by rewrite Hk, Hf, Hv.
Qed.

Lemma json_roundtrip (bk : book) :
  wfBook bk → json_Unmarshal (json_Marshal bk).1 new_book = (bk, None).
Proof.
  intros (HI & HT & HA).
  apply wfUTF8_escapes in HI as [tI HI].
  apply wfUTF8_escapes in HT as [tT HT].
  apply wfUTF8_escapes in HA as [tA HA].
  rewrite (json_Marshal_text bk tI tT tA) by done.
  apply escapes_sound in HI as (_ & BI & UI).
  apply escapes_sound in HT as (_ & BT & UT).
  apply escapes_sound in HA as (_ & BA & UA).
  unfold json_Unmarshal. rewrite scanJSON_marshalled by done.
  cbn [fold_left].
  rewrite (decodeMember_string _ _ "isbn" tI (ISBN bk) fieldISBN) by done.
  rewrite (decodeMember_string _ _ "title" tT (Title bk) fieldTitle) by done.
  rewrite (decodeMember_string _ _ "author" tA (Author bk) fieldAuthor) by done.
  by destruct bk.
Qed.

(** ** Facts about the log record *)

Lemma endsWithNewline_snoc (v : string) : endsWithNewline (v +:+ newline) = true.
Proof.
  induction v as [|c v IH]; [done |].
  rewrite sapp_cons. cbn [endsWithNewline].
  destruct (v +:+ newline) eqn:E; [| exact IH].
  destruct v; discriminate.
Qed.

Lemma Println_record_errorLogger (file v : string) :
  Println_record errorLogger file 100 v
  = "ERROR " +:+ file +:+ ":100: " +:+ v +:+ newline.
Proof.
  unfold Println_record, Output, Sprintln. fold newline.
  rewrite endsWithNewline_snoc.
  change (formatHeader errorLogger file 100)
    with ("ERROR " +:+ (file +:+ ":" +:+ "100" +:+ ": ") +:+ "").
  generalize (v +:+ newline). intros t.
  rewrite !sapp_assoc, sapp_nil_r.
  repeat (rewrite ?sapp_cons, ?sapp_nil). reflexivity.
Qed.

(** ** Facts about the handlers as trees of calls *)

Lemma show_invalid (req : Request.t) :
  MatchString isbnRegexp (index (Request.QueryStringParameters req) "isbn") = false →
  show req = Ret response400.
Proof. intros H. unfold show. by rewrite H. Qed.


Lemma create_not_json (req : Request.t) :
  ¬ jsonContentType req → create req = Ret response406.
Proof.
  intros H. unfold create. rewrite bool_decide_eq_false_2; done.
Qed.

Lemma create_json (req : Request.t) :
  jsonContentType req →
  create req =
  match json_Unmarshal (Request.Body req) new_book with
  | (_, Some _) => Ret response422
  | (bk, None) =>
      if negb (MatchString isbnRegexp (ISBN bk)) then Ret response400
      else if bool_decide (Title bk = "") || bool_decide (Author bk = "")
      then Ret response400
      else
        Call_putItem bk
          (λ err, match err with
                  | Some e => serverError e
                  | None =>
                      Ret (Response.Make 201
                             {[ "Location" := "/books?isbn=" +:+ ISBN bk ]} "",
                           None)
                  end)
  end.
Proof.
  intros H. unfold create. rewrite bool_decide_eq_true_2 by done. cbn [negb].
  destruct (json_Unmarshal (Request.Body req) new_book) as [bk [e|]]; [done |].
  destruct (negb (MatchString isbnRegexp (ISBN bk))); [done |].
  destruct (bool_decide (Title bk = "") || bool_decide (Author bk = "")); done.
Qed.

Lemma validBook_checks (bk : book) :
  validBook bk ↔
  negb (MatchString isbnRegexp (ISBN bk)) = false ∧
  bool_decide (Title bk = "") || bool_decide (Author bk = "") = false.
Proof.
  unfold validBook. rewrite negb_false_iff, orb_false_iff.
  rewrite !bool_decide_eq_false. tauto.
Qed.

Lemma create_valid (req : Request.t) (bk : book) :
  jsonContentType req →
  json_Unmarshal (Request.Body req) new_book = (bk, None) →
  validBook bk →
  create req =
  Call_putItem bk
    (λ err, match err with
            | Some e => serverError e
            | None =>
                Ret (Response.Make 201
                       {[ "Location" := "/books?isbn=" +:+ ISBN bk ]} "",
                     None)
            end).
Proof.
  intros Hct Hp [H1 H2]%validBook_checks.
  rewrite create_json by done. by rewrite Hp, H1, H2.
Qed.

(** C3: the write handler checks the content type first (406, whatever
    the body is), then parses the body (422 on failure), then validates
    the three fields (400); the tree of calls starts with [putItem]
    only when all of these checks have passed; and the body that has
    an ISBN but neither title nor author is answered with 400. *)
Theorem create_checks_in_order (req : Request.t) :
  (¬ jsonContentType req →
   ∀ body : string,
     create (Request.Make (Request.Path req) (Request.HTTPMethod req)
               (Request.Headers req) (Request.QueryStringParameters req) body)
     = Ret response406) ∧
  (jsonContentType req →
   (json_Unmarshal (Request.Body req) new_book).2 ≠ None →
   create req = Ret response422) ∧
  (jsonContentType req →
   ∀ bk : book,
     json_Unmarshal (Request.Body req) new_book = (bk, None) →
     MatchString isbnRegexp (ISBN bk) = false ∨ Title bk = "" ∨ Author bk = "" →
     create req = Ret response400) ∧
  (∀ (bk : book) (k : option error → Prog result),
     create req = Call_putItem bk k →
     jsonContentType req ∧
     json_Unmarshal (Request.Body req) new_book = (bk, None) ∧
     validBook bk) ∧
  (jsonContentType req →
   Request.Body req = dq "{'isbn':'123-4567890123'}" →
   create req = Ret response400).
Proof.
  split_and!.
  - intros H body. by apply create_not_json.
  - intros Hct Hp. rewrite create_json by done.
    destruct (json_Unmarshal (Request.Body req) new_book) as [bk [e|]]; done.
  - intros Hct bk Hp Hbad. rewrite create_json, Hp by done.
    destruct (negb (MatchString isbnRegexp (ISBN bk))) eqn:H1; [done |].
    destruct (bool_decide (Title bk = "") || bool_decide (Author bk = ""))
      eqn:H2; [done |].
    exfalso. apply negb_false_iff in H1. apply orb_false_iff in H2 as [H2 H3].
    apply bool_decide_eq_false in H2, H3.
    destruct Hbad as [Hb|[Hb|Hb]]; congruence.
  - intros bk k Heq.
    destruct (decide (jsonContentType req)) as [Hct|Hct].
    2:{ rewrite create_not_json in Heq by done. discriminate. }
    rewrite create_json in Heq by done.
    destruct (json_Unmarshal (Request.Body req) new_book) as [bk' [e|]] eqn:Hp;
      [discriminate |].
    destruct (negb (MatchString isbnRegexp (ISBN bk'))) eqn:H1; [discriminate |].
    destruct (bool_decide (Title bk' = "") || bool_decide (Author bk' = ""))
      eqn:H2; [discriminate |].
    injection Heq as -> _.
    split_and!; [done | done |]. by apply validBook_checks.
  - intros Hct Hb. rewrite create_json, Hb by done. reflexivity.
Qed.

Lemma router_GET (req : Request.t) :
  Request.HTTPMethod req = "GET" → router req = show req.
Proof. intros H. unfold router. by rewrite H. Qed.

Lemma router_POST (req : Request.t) :
  Request.HTTPMethod req = "POST" → router req = create req.
Proof. intros H. unfold router. by rewrite H. Qed.

Lemma router_other (req : Request.t) :
  Request.HTTPMethod req ≠ "GET" → Request.HTTPMethod req ≠ "POST" →
  router req = Ret response405.
Proof.
  intros H1 H2. unfold router.
  by rewrite !bool_decide_eq_false_2.
Qed.

(** C10: the content type is read under the exact key [Content-Type];
    a POST request whose headers lack that key is answered with 406
    whatever its body is, also when [application/json] is there under a
    key spelled in another case. *)
Theorem content_type_key_is_exact
    (path body : string) (headers query : gmap string string) :
  headers !! "Content-Type" = None →
  router (Request.Make path "POST" headers query body) = Ret response406 ∧
  router (Request.Make path "POST"
            (<["content-type" := "application/json"]> headers) query body)
  = Ret response406.
Proof.
  intros H.
  split; rewrite router_POST by done;
    apply create_not_json; unfold jsonContentType, index; cbn.
  - by rewrite H.
  - rewrite lookup_insert_ne by done. by rewrite H.
Qed.

Ltac status_in :=
  cbn; rewrite ?elem_of_cons; repeat (first [left; reflexivity | right]).

Section RunFacts.

Context {S : Type}.
Variable getItem_impl : string → S → (option book * option error) * S.
Variable putItem_impl : book → S → option error * S.
Variable main_go : string.

Local Abbreviation exec := (run getItem_impl putItem_impl main_go).

Lemma run_serverError (e : error) (w : World S) :
  exec (serverError e) w
  = (response500, MkWorld (db w) (stderr w ++ [errorRecord main_go e]) (calls w)).
Proof.
  cbn. by rewrite Println_record_errorLogger.
Qed.

Lemma run_show_valid (req : Request.t) (w : World S) :
  let isbn := index (Request.QueryStringParameters req) "isbn" in
  MatchString isbnRegexp isbn = true →
  exec (show req) w =
  let '(r, s') := getItem_impl isbn (db w) in
  let w' := MkWorld s' (stderr w) (calls w ++ [CallGet isbn]) in
  match r.2 with
  | Some e => exec (serverError e) w'
  | None =>
      match r.1 with
      | None => (response404, w')
      | Some b => ((Response.Make 200 ∅ (json_Marshal b).1, None), w')
      end
  end.
Proof.
  intros isbn H. unfold show. fold isbn. rewrite H. cbn.
  destruct (getItem_impl isbn (db w)) as [[bk err] s'].
  destruct err as [e|]; [done |]. by destruct bk.
Qed.

Lemma run_create_valid (req : Request.t) (bk : book) (w : World S) :
  jsonContentType req →
  json_Unmarshal (Request.Body req) new_book = (bk, None) →
  validBook bk →
  exec (create req) w =
  let '(r, s') := putItem_impl bk (db w) in
  let w' := MkWorld s' (stderr w) (calls w ++ [CallPut bk]) in
  match r with
  | Some e => exec (serverError e) w'
  | None =>
      ((Response.Make 201 {[ "Location" := "/books?isbn=" +:+ ISBN bk ]} "",
        None), w')
  end.
Proof.
  intros Hct Hp Hv. rewrite (create_valid req bk) by done.
  cbn [run]. destruct (putItem_impl bk (db w)) as [[e|] s']; done.
Qed.

(** C2: a GET request without the [isbn] parameter is handled as one
    with the empty ISBN; an ISBN that does not validate is answered
    with 400 by a handler that makes no call at all, so the world,
    store included, is left as it was; a valid ISBN the store does not
    know is answered with 404. *)
Theorem show_bad_request_and_not_found (req : Request.t) (w : World S) :
  let isbn := index (Request.QueryStringParameters req) "isbn" in
  (Request.QueryStringParameters req !! "isbn" = None →
   isbn = "" ∧ exec (show req) w = (response400, w)) ∧
  (MatchString isbnRegexp isbn = false →
   show req = Ret response400 ∧ exec (show req) w = (response400, w)) ∧
  (MatchString isbnRegexp isbn = true →
   ∀ s' : S,
     getItem_impl isbn (db w) = ((None, None), s') →
     exec (show req) w
     = (response404, MkWorld s' (stderr w) (calls w ++ [CallGet isbn]))).
Proof.
  intros isbn. split_and!.
  - intros H. assert (isbn = "") as Hi.
    { unfold isbn, index. by rewrite H. }
    split; [done |]. rewrite show_invalid; [done |]. fold isbn. by rewrite Hi.
  - intros H. by rewrite show_invalid.
  - intros H s' Hg. rewrite run_show_valid by done. fold isbn. by rewrite Hg.
Qed.

(** C4: a POST request that passes every check and whose [putItem]
    succeeds is answered with 201, the single header [Location] with
    the ISBN of the parsed record appended as it is to [/books?isbn=],
    and the empty body. *)
Theorem create_success_201
    (req : Request.t) (bk : book) (w : World S) (s' : S) :
  jsonContentType req →
  json_Unmarshal (Request.Body req) new_book = (bk, None) →
  validBook bk →
  putItem_impl bk (db w) = (None, s') →
  exec (create req) w
  = ((Response.Make 201 {[ "Location" := "/books?isbn=" +:+ ISBN bk ]} "",
      None),
     MkWorld s' (stderr w) (calls w ++ [CallPut bk])).
Proof.
  intros Hct Hp Hv Hput. rewrite (run_create_valid req bk) by done.
  by rewrite Hput.
Qed.

(** C5: when [getItem] (GET) or [putItem] (POST) returns an error, the
    handler answers with 500 and the reason phrase of 500, a response
    that is the same for every cause, and standard error receives
    exactly one more record: the prefix [ERROR ], the place of the
    call and the cause. *)
Theorem storage_failure_is_500
    (req : Request.t) (w : World S) (e : error) (s' : S) :
  let isbn := index (Request.QueryStringParameters req) "isbn" in
  (MatchString isbnRegexp isbn = true →
   ∀ found : option book,
     getItem_impl isbn (db w) = ((found, Some e), s') →
     exec (show req) w
     = ((Response.Make 500 ∅ (StatusText 500), None),
        MkWorld s' (stderr w ++ [errorRecord main_go e])
          (calls w ++ [CallGet isbn]))) ∧
  (jsonContentType req →
   ∀ bk : book,
     json_Unmarshal (Request.Body req) new_book = (bk, None) →
     validBook bk →
     putItem_impl bk (db w) = (Some e, s') →
     exec (create req) w
     = ((Response.Make 500 ∅ (StatusText 500), None),
        MkWorld s' (stderr w ++ [errorRecord main_go e])
          (calls w ++ [CallPut bk]))).
Proof.
  intros isbn. split.
  - intros H found Hg. rewrite run_show_valid by done. fold isbn.
    rewrite Hg. cbn [snd]. by rewrite run_serverError.
  - intros Hct bk Hp Hv Hput. rewrite (run_create_valid req bk) by done.
    rewrite Hput. by rewrite run_serverError.
Qed.

Lemma run_router_cases (req : Request.t) (w : World S) :
  ∃ (r : Response.t) (new : list Call) (log : list string) (s' : S),
    exec (router req) w
    = ((r, None), MkWorld s' (stderr w ++ log) (calls w ++ new)) ∧
    Response.StatusCode r ∈ producedStatus ∧
    Forall validCall new.
Proof.
  assert (∀ r : result, r.2 = None →
            Response.StatusCode r.1 ∈ producedStatus →
            ∃ (r' : Response.t) (new : list Call) (log : list string) (s' : S),
              (r, w) = ((r', None), MkWorld s' (stderr w ++ log) (calls w ++ new)) ∧
              Response.StatusCode r' ∈ producedStatus ∧ Forall validCall new)
    as Hret.
  { intros [r o] Ho Hs. cbn in Ho, Hs. subst o.
    exists r, [], [], (db w). rewrite !app_nil_r. by destruct w. }
  unfold producedStatus in *.
  destruct (decide (Request.HTTPMethod req = "GET")) as [Hget|Hget].
  { rewrite router_GET by done.
    destruct (MatchString isbnRegexp
                (index (Request.QueryStringParameters req) "isbn")) eqn:Hm.
    2:{ rewrite show_invalid by done. apply Hret; [done |]. status_in. }
    rewrite run_show_valid by done.
    destruct (getItem_impl _ (db w)) as [[bk [e|]] s']; cbn [fst snd].
    - rewrite run_serverError. cbn [db stderr calls].
      eexists _, [_], [_], s'. split_and!; [done | status_in |].
      by apply Forall_singleton.
    - destruct bk as [b|].
      + eexists _, [_], [], s'. rewrite app_nil_r.
        split_and!; [done | status_in |]. by apply Forall_singleton.
      + eexists _, [_], [], s'. rewrite app_nil_r.
        split_and!; [done | status_in |]. by apply Forall_singleton. }
  destruct (decide (Request.HTTPMethod req = "POST")) as [Hpost|Hpost].
  2:{ rewrite router_other by done. apply Hret; [done |]. status_in. }
  rewrite router_POST by done.
  destruct (decide (jsonContentType req)) as [Hct|Hct].
  2:{ rewrite create_not_json by done. apply Hret; [done |]. status_in. }
  destruct (json_Unmarshal (Request.Body req) new_book) as [bk [e|]] eqn:Hp.
  { rewrite create_json, Hp by done. apply Hret; [done |]. status_in. }
  destruct (decide (validBook bk)) as [Hv|Hv].
  - rewrite (run_create_valid req bk) by done.
    destruct (putItem_impl bk (db w)) as [[e|] s'].
    + rewrite run_serverError. cbn [db stderr calls].
      eexists _, [_], [_], s'. split_and!; [done | status_in |].
      by apply Forall_singleton.
    + eexists _, [_], [], s'. rewrite app_nil_r.
      split_and!; [done | status_in |]. by apply Forall_singleton.
  - rewrite create_json, Hp by done.
    rewrite validBook_checks in Hv.
    destruct (negb (MatchString isbnRegexp (ISBN bk)));
      [apply Hret; [done |]; status_in |].
    destruct (bool_decide (Title bk = "") || bool_decide (Author bk = ""));
      [apply Hret; [done |]; status_in |].
    by destruct Hv.
Qed.

(** C6: whatever the request and the collaborator, every book a run of
    the router hands to [putItem] has an ISBN that validates, a title
    and an author. *)
Theorem only_valid_books_are_put (req : Request.t) (w : World S) :
  ∃ new : list Call,
    calls (exec (router req) w).2 = calls w ++ new ∧ Forall validCall new.
Proof.
  destruct (run_router_cases req w) as (r & new & log & s' & -> & _ & Hnew).
  by exists new.
Qed.

(** C7: the router looks at the method only: GET is the read handler,
    POST the write handler, and anything else is answered with 405 and
    its reason phrase by a tree without calls, which leaves the world
    as it was. *)
Theorem router_dispatches_on_method (req : Request.t) (w : World S) :
  (Request.HTTPMethod req = "GET" → router req = show req) ∧
  (Request.HTTPMethod req = "POST" → router req = create req) ∧
  (Request.HTTPMethod req ≠ "GET" → Request.HTTPMethod req ≠ "POST" →
   router req = Ret (Response.Make 405 ∅ (StatusText 405), None) ∧
   exec (router req) w = ((Response.Make 405 ∅ "Method Not Allowed", None), w)).
Proof.
  split_and!.
  - apply router_GET.
  - apply router_POST.
  - intros H1 H2. by rewrite router_other.
Qed.

(** C8: for every request and every collaborator the router returns:
    the run ends with a response whose status is one of the eight the
    program can produce, and the error next to it is nil. *)
Theorem router_always_responds (req : Request.t) (w : World S) :
  (exec (router req) w).1.2 = None ∧
  Response.StatusCode (exec (router req) w).1.1 ∈ producedStatus.
Proof.
  destruct (run_router_cases req w) as (r & new & log & s' & -> & Hs & _).
  done.
Qed.

End RunFacts.

(** ** Write, then read, over the in-memory collaborator *)

Lemma run_mem_create_valid (post : Request.t) (bk : book) (w : World MemStore) :
  jsonContentType post →
  json_Unmarshal (Request.Body post) new_book = (bk, None) →
  validBook bk →
  fault (db w) = None →
  run_mem (create post) w
  = ((Response.Make 201 {[ "Location" := "/books?isbn=" +:+ ISBN bk ]} "",
      None),
     MkWorld (MkMemStore (<[ISBN bk := bk]> (items (db w))) None)
       (stderr w) (calls w ++ [CallPut bk])).
Proof.
  intros Hct Hp Hv Hf. unfold run_mem.
  rewrite (run_create_valid _ _ _ post bk) by done.
  unfold mem_putItem. by rewrite Hf.
Qed.

Lemma run_mem_show_stored (get : Request.t) (bk : book) (w : World MemStore) :
  MatchString isbnRegexp (ISBN bk) = true →
  index (Request.QueryStringParameters get) "isbn" = ISBN bk →
  fault (db w) = None →
  items (db w) !! ISBN bk = Some bk →
  run_mem (show get) w
  = ((Response.Make 200 ∅ (json_Marshal bk).1, None),
     MkWorld (db w) (stderr w) (calls w ++ [CallGet (ISBN bk)])).
Proof.
  intros Hm Hi Hf Hl. unfold run_mem.
  rewrite run_show_valid by (by rewrite Hi).
  rewrite Hi. unfold mem_getItem. rewrite Hf, Hl. done.
Qed.

(** C9: over the in-memory collaborator, a valid record written by the
    write handler is what the read handler finds under its ISBN: the
    POST is answered with 201 after one [putItem] of the record, the
    GET that follows with 200 and the JSON text of that record as
    body, and parsing this body yields the ISBN, title and author that
    were written, byte for byte. *)
Theorem write_then_read_roundtrip
    (post get : Request.t) (bk : book) (w : World MemStore) :
  jsonContentType post →
  json_Unmarshal (Request.Body post) new_book = (bk, None) →
  validBook bk →
  fault (db w) = None →
  index (Request.QueryStringParameters get) "isbn" = ISBN bk →
  let written := run_mem (create post) w in
  let read := run_mem (show get) written.2 in
  Response.StatusCode written.1.1 = 201%Z ∧
  calls written.2 = calls w ++ [CallPut bk] ∧
  read.1 = (Response.Make 200 ∅ (json_Marshal bk).1, None) ∧
  json_Unmarshal (Response.Body read.1.1) new_book = (bk, None).
Proof.
  intros Hct Hp Hv Hf Hi written read. subst written read.
  rewrite (run_mem_create_valid post bk) by done. cbn [fst snd].
  rewrite (run_mem_show_stored get bk); [| apply Hv | done | done |].
  2:{ cbn. apply lookup_insert_eq. }
  cbn [fst Response.Body].
  split_and!; [done | done | done |].
  apply json_roundtrip.
  pose proof (json_Unmarshal_wf (Request.Body post)) as Hwf.
  by rewrite Hp in Hwf.
Qed.

(** ** The statements at sample inputs *)

Lemma show_bad_request_and_not_found_witness :
  run_mem (show (Request.Make "/books" "GET" ∅ ∅ "")) emptyWorld
  = (response400, emptyWorld) ∧
  run_mem (show (Request.Make "/books" "GET" ∅ {[ "isbn" := "12-4567890123" ]} ""))
    brokenWorld
  = (response400, brokenWorld) ∧
  run_mem (show sampleGet) emptyWorld
  = (response404,
     MkWorld (MkMemStore ∅ None) [] [CallGet "123-4567890123"]).
Proof.
  split_and!.
  - pose proof (show_bad_request_and_not_found mem_getItem mem_putItem
                  "/var/task/main.go"
                  (Request.Make "/books" "GET" ∅ ∅ "") emptyWorld) as H.
    cbv zeta in H. destruct H as (H & _ & _).
    apply H. reflexivity.
  - pose proof (show_bad_request_and_not_found mem_getItem mem_putItem
                  "/var/task/main.go"
                  (Request.Make "/books" "GET" ∅
                     {[ "isbn" := "12-4567890123" ]} "") brokenWorld) as H.
    cbv zeta in H. destruct H as (_ & H & _).
    apply H. reflexivity.
  - pose proof (show_bad_request_and_not_found mem_getItem mem_putItem
                  "/var/task/main.go" sampleGet emptyWorld) as H.
    cbv zeta in H. destruct H as (_ & _ & H).
    apply (H eq_refl (MkMemStore ∅ None)). reflexivity.
Defined.

Lemma create_checks_in_order_witness :
  create (Request.Make "/books" "POST" {[ "Content-Type" := "text/plain" ]} ∅
            (dq "{'isbn':'123-4567890123','title':'Emma','author':'Jane Austen'}"))
  = Ret response406 ∧
  create (Request.Make "/books" "POST" jsonHeaders ∅ (dq "{'isbn':"))
  = Ret response422 ∧
  create (Request.Make "/books" "POST" jsonHeaders ∅
            (dq "{'isbn':'12-4567890123','title':'Emma','author':'Jane Austen'}"))
  = Ret response400 ∧
  (jsonContentType samplePost ∧
   json_Unmarshal (Request.Body samplePost) new_book = (sampleBook, None) ∧
   validBook sampleBook) ∧
  create (Request.Make "/books" "POST" jsonHeaders ∅
            (dq "{'isbn':'123-4567890123'}"))
  = Ret response400.
Proof.
  split; [| split; [| split; [| split]]].
  - refine (proj1 (create_checks_in_order
                     (Request.Make "/books" "POST"
                        {[ "Content-Type" := "text/plain" ]} ∅ "")) _ _).
    vm_compute. discriminate.
  - refine (proj1 (proj2 (create_checks_in_order _)) _ _).
    + reflexivity.
    + vm_compute. discriminate.
  - refine (proj1 (proj2 (proj2 (create_checks_in_order _))) _
              (Book "12-4567890123" "Emma" "Jane Austen") _ _).
    + reflexivity.
    + vm_compute. reflexivity.
    + left. reflexivity.
  - refine (proj1 (proj2 (proj2 (proj2 (create_checks_in_order samplePost))))
              sampleBook _ _).
    vm_compute. reflexivity.
  - refine (proj2 (proj2 (proj2 (proj2 (create_checks_in_order _)))) _ _);
      reflexivity.
Defined.

Lemma content_type_key_is_exact_witness :
  router (Request.Make "/books" "POST" ∅ ∅ (Request.Body samplePost))
  = Ret response406 ∧
  router (Request.Make "/books" "POST"
            (<["content-type" := "application/json"]> ∅) ∅
            (Request.Body samplePost))
  = Ret response406.
Proof.
  apply (content_type_key_is_exact "/books" (Request.Body samplePost) ∅ ∅).
  reflexivity.
Defined.

Lemma create_success_201_witness :
  run_mem (create samplePost) emptyWorld
  = ((Response.Make 201 {[ "Location" := "/books?isbn=123-4567890123" ]} "",
      None),
     MkWorld (MkMemStore {[ "123-4567890123" := sampleBook ]} None) []
       [CallPut sampleBook]).
Proof.
  apply (create_success_201 mem_getItem mem_putItem "/var/task/main.go"
           samplePost sampleBook emptyWorld
           (MkMemStore {[ "123-4567890123" := sampleBook ]} None)).
  - reflexivity.
  - vm_compute. reflexivity.
  - split_and!; [reflexivity | discriminate | discriminate].
  - reflexivity.
Defined.

Lemma storage_failure_is_500_witness :
  run_mem (show sampleGet) brokenWorld
  = ((Response.Make 500 ∅ "Internal Server Error", None),
     MkWorld (db brokenWorld)
       ["ERROR /var/task/main.go:100: connection refused" +:+ newline]
       [CallGet "123-4567890123"]) ∧
  run_mem (create samplePost) brokenWorld
  = ((Response.Make 500 ∅ "Internal Server Error", None),
     MkWorld (db brokenWorld)
       ["ERROR /var/task/main.go:100: connection refused" +:+ newline]
       [CallPut sampleBook]).
Proof.
  split.
  - pose proof (storage_failure_is_500 mem_getItem mem_putItem
                  "/var/task/main.go" sampleGet brokenWorld
                  (errorString "connection refused") (db brokenWorld)) as H.
    cbv zeta in H. destruct H as (H & _).
    apply (H eq_refl None). reflexivity.
  - pose proof (storage_failure_is_500 mem_getItem mem_putItem
                  "/var/task/main.go" samplePost brokenWorld
                  (errorString "connection refused") (db brokenWorld)) as H.
    cbv zeta in H. destruct H as (_ & H).
    apply (H eq_refl sampleBook).
    + vm_compute. reflexivity.
    + split_and!; [reflexivity | discriminate | discriminate].
    + reflexivity.
Defined.

Lemma router_dispatches_on_method_witness :
  router sampleGet = show sampleGet ∧
  router samplePost = create samplePost ∧
  run_mem (router (Request.Make "/books" "DELETE" ∅ ∅ "")) emptyWorld
  = ((Response.Make 405 ∅ "Method Not Allowed", None), emptyWorld).
Proof.
  split_and!.
  - apply (router_dispatches_on_method mem_getItem mem_putItem
             "/var/task/main.go" sampleGet emptyWorld). reflexivity.
  - apply (router_dispatches_on_method mem_getItem mem_putItem
             "/var/task/main.go" samplePost emptyWorld). reflexivity.
  - apply (router_dispatches_on_method mem_getItem mem_putItem
             "/var/task/main.go" (Request.Make "/books" "DELETE" ∅ ∅ "")
             emptyWorld); discriminate.
Defined.

Lemma write_then_read_roundtrip_witness :
  let written := run_mem (create samplePost) emptyWorld in
  let read := run_mem (show sampleGet) written.2 in
  Response.StatusCode written.1.1 = 201%Z ∧
  calls written.2 = [CallPut sampleBook] ∧
  read.1
  = (Response.Make 200 ∅
       (dq "{'isbn':'123-4567890123','title':'Emma','author':'Jane Austen'}"),
     None) ∧
  json_Unmarshal (Response.Body read.1.1) new_book = (sampleBook, None).
Proof.
  apply (write_then_read_roundtrip samplePost sampleGet sampleBook emptyWorld).
  - reflexivity.
  - vm_compute. reflexivity.
  - split_and!; [reflexivity | discriminate | discriminate].
  - reflexivity.
  - reflexivity.
Defined.

(** ** The outcomes of a request *)

Section Outcomes.

Context {S : Type}.
Variable getItem_impl : string → S → (option book * option error) * S.
Variable putItem_impl : book → S → option error * S.
Variable main_go : string.

Local Abbreviation exec := (run getItem_impl putItem_impl main_go).

(** Every run of the router is one of ten: the five of the read handler
    and the five of the write handler, or the rejection of the method. *)
Lemma run_router_outcome (req : Request.t) (w : World S) :
  let isbn := index (Request.QueryStringParameters req) "isbn" in
  let M := Request.HTTPMethod req in
  let out := exec (router req) w in
  (M ≠ "GET" ∧ M ≠ "POST" ∧ out = (response405, w)) ∨
  (M = "GET" ∧ MatchString isbnRegexp isbn = false ∧ out = (response400, w)) ∨
  (M = "GET" ∧ MatchString isbnRegexp isbn = true ∧
   ∃ (found : option book) (e : error) (s' : S),
     getItem_impl isbn (db w) = ((found, Some e), s') ∧
     out = (response500,
            MkWorld s' (stderr w ++ [errorRecord main_go e])
              (calls w ++ [CallGet isbn]))) ∨
  (M = "GET" ∧ MatchString isbnRegexp isbn = true ∧
   ∃ s' : S,
     getItem_impl isbn (db w) = ((None, None), s') ∧
     out = (response404, MkWorld s' (stderr w) (calls w ++ [CallGet isbn]))) ∨
  (M = "GET" ∧ MatchString isbnRegexp isbn = true ∧
   ∃ (b : book) (s' : S),
     getItem_impl isbn (db w) = ((Some b, None), s') ∧
     out = ((Response.Make 200 ∅ (json_Marshal b).1, None),
            MkWorld s' (stderr w) (calls w ++ [CallGet isbn]))) ∨
  (M = "POST" ∧ ¬ jsonContentType req ∧ out = (response406, w)) ∨
  (M = "POST" ∧ jsonContentType req ∧
   (json_Unmarshal (Request.Body req) new_book).2 ≠ None ∧
   out = (response422, w)) ∨
  (M = "POST" ∧ jsonContentType req ∧
   ∃ bk : book,
     json_Unmarshal (Request.Body req) new_book = (bk, None) ∧
     ¬ validBook bk ∧ out = (response400, w)) ∨
  (M = "POST" ∧ jsonContentType req ∧
   ∃ (bk : book) (e : error) (s' : S),
     json_Unmarshal (Request.Body req) new_book = (bk, None) ∧
     validBook bk ∧ putItem_impl bk (db w) = (Some e, s') ∧
     out = (response500,
            MkWorld s' (stderr w ++ [errorRecord main_go e])
              (calls w ++ [CallPut bk]))) ∨
  (M = "POST" ∧ jsonContentType req ∧
   ∃ (bk : book) (s' : S),
     json_Unmarshal (Request.Body req) new_book = (bk, None) ∧
     validBook bk ∧ putItem_impl bk (db w) = (None, s') ∧
     out = ((Response.Make 201
               {[ "Location" := "/books?isbn=" +:+ ISBN bk ]} "", None),
            MkWorld s' (stderr w) (calls w ++ [CallPut bk]))).
Proof.
  intros isbn M out. subst out M.
  destruct (decide (Request.HTTPMethod req = "GET")) as [Hget|Hget].
  { rewrite router_GET by done.
    destruct (MatchString isbnRegexp isbn) eqn:Hm.
    2:{ right; left. by rewrite show_invalid. }
    rewrite run_show_valid by done. fold isbn.
    destruct (getItem_impl isbn (db w)) as [[found [e|]] s'] eqn:Hg;
      cbn [fst snd].
    - do 2 right; left. rewrite run_serverError. cbn [db stderr calls].
      split_and!; [done | done |]. by exists found, e, s'.
    - destruct found as [b|].
      + do 4 right; left. split_and!; [done | done |]. by exists b, s'.
      + do 3 right; left. split_and!; [done | done |]. by exists s'. }
  destruct (decide (Request.HTTPMethod req = "POST")) as [Hpost|Hpost].
  2:{ left. by rewrite router_other. }
  rewrite router_POST by done. do 5 right.
  destruct (decide (jsonContentType req)) as [Hct|Hct].
  2:{ left. by rewrite create_not_json. }
  right.
  destruct (json_Unmarshal (Request.Body req) new_book) as [bk [e|]] eqn:Hp.
  { left. rewrite create_json, Hp by done. done. }
  right.
  destruct (decide (validBook bk)) as [Hv|Hv].
  - right. rewrite (run_create_valid _ _ _ req bk) by done.
    destruct (putItem_impl bk (db w)) as [[e|] s'] eqn:Hput.
    + left. rewrite run_serverError. cbn [db stderr calls].
      split_and!; [done | done |]. by exists bk, e, s'.
    + right. split_and!; [done | done |]. by exists bk, s'.
  - left. split_and!; [done | done |]. exists bk.
    split_and!; [done | done |].
    rewrite create_json, Hp by done.
    rewrite validBook_checks in Hv.
    destruct (negb (MatchString isbnRegexp (ISBN bk))); [done |].
    destruct (bool_decide (Title bk = "") || bool_decide (Author bk = ""));
      [done |].
    by destruct Hv.
Qed.

Ltac outcomes req w :=
  let H := fresh "H" in
  pose proof (run_router_outcome req w) as H; cbv zeta in H;
  destruct H as
    [(HM1 & HM2 & Ho)
    |[(HM & Hm & Ho)
    |[(HM & Hm & found & e & s' & Hg & Ho)
    |[(HM & Hm & s' & Hg & Ho)
    |[(HM & Hm & b & s' & Hg & Ho)
    |[(HM & Hct & Ho)
    |[(HM & Hct & Hp & Ho)
    |[(HM & Hct & bk & Hp & Hv & Ho)
    |[(HM & Hct & bk & e & s' & Hp & Hv & Hput & Ho)
    |(HM & Hct & bk & s' & Hp & Hv & Hput & Ho)]]]]]]]]];
  rewrite Ho; cbn [fst snd db stderr calls Response.StatusCode
                   Response.Headers Response.Body response400 response404
                   response405 response406 response422 response500].

(** X1: the read handler on a hit: for a valid ISBN for which [getItem]
    returns a record and no error, the answer is 200, no header, the
    JSON text of that record as body; nothing is logged and [getItem]
    was called once, with the query parameter as it came. *)
Theorem show_found_is_200
    (req : Request.t) (w : World S) (b : book) (s' : S) :
  let isbn := index (Request.QueryStringParameters req) "isbn" in
  MatchString isbnRegexp isbn = true →
  getItem_impl isbn (db w) = ((Some b, None), s') →
  exec (show req) w
  = ((Response.Make 200 ∅ (json_Marshal b).1, None),
     MkWorld s' (stderr w) (calls w ++ [CallGet isbn])).
Proof.
  intros isbn Hm Hg. rewrite run_show_valid by done. fold isbn.
  by rewrite Hg.
Qed.

(** X2: standard error grows by exactly one record when the answer is
    500, and is left as it was for every other answer. *)
Theorem log_grows_exactly_on_500 (req : Request.t) (w : World S) :
  let out := exec (router req) w in
  (Response.StatusCode out.1.1 = 500%Z ∧
   ∃ e : error, stderr out.2 = stderr w ++ [errorRecord main_go e]) ∨
  (Response.StatusCode out.1.1 ≠ 500%Z ∧ stderr out.2 = stderr w).
Proof.
  intros out. subst out.
  outcomes req w; first [by right | left; eauto].
Qed.

(** X3: one request makes at most one persistence call: a GET request
    at most one [getItem], with the [isbn] parameter unchanged, and
    never a [putItem]; a POST request at most one [putItem], of the
    record parsed from the body, and never a [getItem]. *)
Theorem at_most_one_persistence_call (req : Request.t) (w : World S) :
  ∃ new : list Call,
    calls (exec (router req) w).2 = calls w ++ new ∧ callsOfRequest req new.
Proof.
  outcomes req w;
    first [ by exists []; rewrite app_nil_r
          | by eexists [_] ].
Qed.

(** X4: a response has one of three shapes: 200 without headers; 201
    with the empty body and the single header [Location]; or one of
    the six error statuses, without headers and with the reason phrase
    of its own status as body. *)
Theorem responses_have_three_shapes (req : Request.t) (w : World S) :
  responseShape (exec (router req) w).1.1.
Proof.
  unfold responseShape.
  outcomes req w;
    first [ by left
          | right; left; by eauto
          | right; right; split_and!; [status_in | done | done] ].
Qed.

(** X5: a request answered with 400, 405, 406 or 422 has had no effect:
    no persistence call was made, nothing was logged, and the store is
    the one the request found. *)
Theorem rejections_have_no_effect (req : Request.t) (w : World S) :
  Response.StatusCode (exec (router req) w).1.1 ∈ [400; 405; 406; 422]%Z →
  (exec (router req) w).2 = w.
Proof.
  outcomes req w; try done;
    rewrite !elem_of_cons, elem_of_nil; intros H;
    destruct_or! H; discriminate.
Qed.

(** X6: the statuses by method: a GET request is answered with 200, 400,
    404 or 500, a POST request with 201, 400, 406, 422 or 500. *)
Theorem statuses_by_method (req : Request.t) (w : World S) :
  (Request.HTTPMethod req = "GET" →
   Response.StatusCode (exec (router req) w).1.1 ∈ [200; 400; 404; 500]%Z) ∧
  (Request.HTTPMethod req = "POST" →
   Response.StatusCode (exec (router req) w).1.1
   ∈ [201; 400; 406; 422; 500]%Z).
Proof.
  split; intros HM0; outcomes req w; try congruence; status_in.
Qed.

(** X7: success is never reported without the store: 201 is answered
    only after [putItem] returned no error for the valid record parsed
    from the body, and 200 only with the JSON text of a record that
    [getItem] returned without error for the ISBN asked for. *)
Theorem success_comes_from_the_store (req : Request.t) (w : World S) :
  let isbn := index (Request.QueryStringParameters req) "isbn" in
  let out := exec (router req) w in
  (Response.StatusCode out.1.1 = 201%Z →
   ∃ (bk : book) (s' : S),
     Request.HTTPMethod req = "POST" ∧
     json_Unmarshal (Request.Body req) new_book = (bk, None) ∧
     validBook bk ∧
     putItem_impl bk (db w) = (None, s') ∧ db out.2 = s') ∧
  (Response.StatusCode out.1.1 = 200%Z →
   ∃ (b : book) (s' : S),
     Request.HTTPMethod req = "GET" ∧
     getItem_impl isbn (db w) = ((Some b, None), s') ∧
     Response.Body out.1.1 = (json_Marshal b).1 ∧ db out.2 = s').
Proof.
  intros isbn out. subst out.
  split; intros Hs; revert Hs; outcomes req w; intros Hs;
    try discriminate Hs; by eauto 10.
Qed.

(** X8: the strings of every record handed to [putItem] are
    well-formed UTF-8, whatever bytes the body of the request held. *)
Theorem only_wellformed_utf8_is_put (req : Request.t) (w : World S) :
  ∃ new : list Call,
    calls (exec (router req) w).2 = calls w ++ new ∧ Forall wfCall new.
Proof.
  outcomes req w;
    first [ by exists []; rewrite app_nil_r
          | eexists [_]; split; [done |]; apply Forall_singleton ];
    try done.
  all: cbn [wfCall];
    pose proof (json_Unmarshal_wf (Request.Body req)) as Hwf;
    by rewrite Hp in Hwf.
Qed.

End Outcomes.

(** ** More about the validator *)

Lemma slength_app (a b : string) :
  String.length (a +:+ b) = String.length a + String.length b.
Proof.
  induction a as [|c a IH]; [done |].
  rewrite sapp_cons. cbn [String.length]. by rewrite IH.
Qed.

Lemma allDigits_length_shape (m : string) :
  spec_isbn_shape m → String.length m = 14.
Proof.
  intros (a & b & -> & Hla & _ & Hlb & _).
  rewrite !slength_app, Hla, Hlb. reflexivity.
Qed.

(** X9: the validator looks for an ISBN anywhere in the string: bytes
    before and after a string it accepts never make it reject. *)
Theorem validator_tolerates_padding (pre s post : string) :
  MatchString isbnRegexp s = true →
  MatchString isbnRegexp (pre +:+ s +:+ post) = true.
Proof.
  rewrite !MatchString_isbn_spec.
  intros (p & m & q & -> & Hm).
  exists (pre +:+ p), m, (q +:+ post). split; [| done].
  by rewrite !sapp_assoc.
Qed.

(** X10: a string of fewer than 14 bytes is never a valid ISBN, so the
    read handler answers a GET request with such an [isbn] parameter,
    the missing one included, with 400 and makes no call. *)
Theorem short_isbn_is_rejected (req : Request.t) :
  String.length (index (Request.QueryStringParameters req) "isbn") < 14 →
  MatchString isbnRegexp (index (Request.QueryStringParameters req) "isbn")
  = false ∧
  show req = Ret response400.
Proof.
  intros Hlen.
  assert (MatchString isbnRegexp
            (index (Request.QueryStringParameters req) "isbn") = false) as Hm.
  { apply not_true_is_false. intros H.
    apply MatchString_isbn_spec in H as (p & m & q & Heq & Hm).
    apply allDigits_length_shape in Hm.
    rewrite Heq, !slength_app, Hm in Hlen. lia. }
  split; [done |]. by apply show_invalid.
Qed.

(** ** More about the codec of [book] *)

(** X11: for a record of well-formed UTF-8 strings [json.Marshal]
    returns no error and a text from which [json.Unmarshal] reads the
    same three strings back. *)
Theorem book_json_roundtrip (bk : book) :
  wfBook bk →
  (json_Marshal bk).2 = None ∧
  json_Unmarshal (json_Marshal bk).1 new_book = (bk, None).
Proof.
  intros H. split; [done |]. by apply json_roundtrip.
Qed.

(** ** More about the body of a POST request *)

(** X12: a body that is not a JSON text is answered with 422, and so is
    a JSON text that is an array, a number, a string or a boolean; the
    text [null] is a record without fields and is answered with 400. *)
Theorem bodies_that_are_not_objects (req : Request.t) :
  jsonContentType req →
  match scanJSON (Request.Body req) with
  | None => create req = Ret response422
  | Some JNull => create req = Ret response400
  | Some (JObject _) => True
  | Some _ => create req = Ret response422
  end.
Proof.
  intros Hct. rewrite create_json by done. unfold json_Unmarshal.
  by destruct (scanJSON (Request.Body req)) as [[]|].
Qed.

Lemma saveError_is_Some (e : UnmarshalError) (saved : option UnmarshalError) :
  is_Some (saveError e saved).
Proof. destruct saved; by eexists. Qed.

Lemma decodeMember_saved (st : book * option UnmarshalError)
    (m : string * json) :
  is_Some st.2 → is_Some (decodeMember st m).2.
Proof.
  destruct st as [bk saved]. cbn [snd]. intros [e ->].
  unfold decodeMember. repeat case_match; simplify_eq; by eexists.
Qed.

Lemma decodeMembers_saved (ms : list (string * json))
    (st : book * option UnmarshalError) :
  is_Some st.2 → is_Some (fold_left decodeMember ms st).2.
Proof.
  revert st. induction ms as [|m ms IH]; intros st H; [done |].
  cbn [fold_left]. apply IH. by apply decodeMember_saved.
Qed.

Lemma decodeMember_mismatch (st : book * option UnmarshalError)
    (m : string * json) :
  typeMismatch m = true → is_Some (decodeMember st m).2.
Proof.
  destruct st as [bk saved]. unfold typeMismatch, memberField, decodeMember.
  intros H. repeat case_match; simplify_eq; cbn [snd];
    apply saveError_is_Some.
Qed.

Lemma decodeMembers_mismatch (ms : list (string * json))
    (st : book * option UnmarshalError) :
  existsb typeMismatch ms = true → is_Some (fold_left decodeMember ms st).2.
Proof.
  revert st. induction ms as [|m ms IH]; intros st H; [done |].
  cbn [existsb fold_left] in *. apply orb_true_iff in H as [H|H].
  - apply decodeMembers_saved. by apply decodeMember_mismatch.
  - by apply IH.
Qed.

(** X13: a body that is a JSON object in which a key of one of the
    three fields has a value that is neither a string nor [null] is
    answered with 422, whatever the other members are. *)
Theorem wrong_typed_field_is_422
    (req : Request.t) (ms : list (string * json)) :
  jsonContentType req →
  scanJSON (Request.Body req) = Some (JObject ms) →
  existsb typeMismatch ms = true →
  create req = Ret response422.
Proof.
  intros Hct Hs Hm. rewrite create_json by done.
  unfold json_Unmarshal. rewrite Hs.
  destruct (decodeMembers_mismatch ms (new_book, None) Hm) as [e He].
  destruct (fold_left decodeMember ms (new_book, None)) as [bk saved].
  cbn [snd] in He. by subst saved.
Qed.

Lemma getField_setField_ne (f f' : field) (v : string) (bk : book) :
  f ≠ f' → getField f (setField f' v bk) = getField f bk.
Proof. by destruct f, f'. Qed.

Lemma decodeMember_keeps (f : field) (st : book * option UnmarshalError)
    (m : string * json) :
  setsField f m = false →
  getField f (decodeMember st m).1 = getField f st.1.
Proof.
  destruct st as [bk saved]. unfold setsField, memberField, decodeMember.
  intros H. repeat case_match; simplify_eq; cbn [fst]; try done.
  apply getField_setField_ne. intros ->.
  rewrite bool_decide_eq_true_2 in H by done. done.
Qed.

Lemma decodeMembers_keeps (f : field) (ms : list (string * json))
    (st : book * option UnmarshalError) :
  forallb (λ m, negb (setsField f m)) ms = true →
  getField f (fold_left decodeMember ms st).1 = getField f st.1.
Proof.
  revert st. induction ms as [|m ms IH]; intros st H; [done |].
  cbn [forallb fold_left] in *. apply andb_true_iff in H as [H1 H2].
  rewrite IH by done. apply decodeMember_keeps.
  by apply negb_true_iff.
Qed.

(** X14: a record is stored only when the body gives all three fields:
    when no member of the object gives a string to one of the fields
    (its key is missing, or is there with [null] only), the answer is
    400 or 422 and [putItem] is not called. *)
Theorem absent_field_is_never_stored
    (req : Request.t) (ms : list (string * json)) (f : field) :
  jsonContentType req →
  scanJSON (Request.Body req) = Some (JObject ms) →
  forallb (λ m, negb (setsField f m)) ms = true →
  create req = Ret response400 ∨ create req = Ret response422.
Proof.
  intros Hct Hs Hf. rewrite create_json by done.
  unfold json_Unmarshal. rewrite Hs.
  pose proof (decodeMembers_keeps f ms (new_book, None) Hf) as Hk.
  destruct (fold_left decodeMember ms (new_book, None)) as [bk [e|]];
    [by right | left].
  cbn [fst] in Hk.
  destruct f; cbn [getField new_book ISBN Title Author] in Hk.
  - by rewrite Hk.
  - destruct (negb (MatchString isbnRegexp (ISBN bk))); [done |].
    by rewrite Hk.
  - destruct (negb (MatchString isbnRegexp (ISBN bk))); [done |].
    rewrite Hk. by rewrite orb_true_r.
Qed.

(** ** [json.Marshal] of strings that are not well-formed UTF-8 *)

Lemma takeS_dropS (n : nat) (s : string) : takeS n s +:+ dropS n s = s.
Proof.
  revert s. induction n as [|n IH]; intros [|c s]; try done.
  cbn [takeS dropS]. by rewrite sapp_cons, IH.
Qed.

Lemma dropS_length (n : nat) (s : string) :
  String.length (dropS n s) ≤ String.length s.
Proof.
  revert s. induction n as [|n IH]; intros [|c s]; cbn; try lia.
  specialize (IH s). lia.
Qed.

Lemma itemPass_dropS (item : string → option (string * nat)) (k : nat)
    (s : string) :
  itemPass item k s = itemPass item 0 (dropS k s).
Proof.
  revert k. induction s as [|c s IH]; intros [|k]; try done.
  cbn [itemPass dropS]. apply IH.
Qed.

Ltac bool_to_prop :=
  repeat match goal with
    | H : _ || _ = false |- _ => apply orb_false_iff in H as [? ?]
    | H : _ && _ = true |- _ => apply andb_true_iff in H as [? ?]
    | H : negb _ = false |- _ => apply negb_false_iff in H
    | H : negb _ = true |- _ => apply negb_true_iff in H
    | H : (_ <? _)%N = false |- _ => apply N.ltb_ge in H
    | H : (_ <? _)%N = true |- _ => apply N.ltb_lt in H
    | H : (_ <=? _)%N = true |- _ => apply N.leb_le in H
    | H : (_ <=? _)%N = false |- _ => apply N.leb_gt in H
    | H : (_ =? _)%N = true |- _ => apply N.eqb_eq in H
    | H : (_ =? _)%N = false |- _ => apply N.eqb_neq in H
    end.

Lemma acceptRange_lo (b0 lo hi : N) (sz : nat) :
  acceptRange b0 = Some (sz, lo, hi) → (128 <= lo)%N.
Proof.
  unfold acceptRange. intros H. repeat case_match; simplify_eq; lia.
Qed.

(** A multi-byte sequence [DecodeRune] accepts: it spans at least two
    bytes, none of them ASCII, and is decoded the same way whatever
    follows it. *)
Lemma DecodeRune_accepts (c : ascii) (s : string) (r : N) (size : nat) :
  highByte c = true →
  DecodeRune (String c s) = (r, size) →
  ¬ (r = RuneError ∧ size = 1) →
  2 ≤ size ∧
  String.length (takeS size (String c s)) = size ∧
  allBytes highByte (takeS size (String c s)) = true ∧
  ∀ t : string, DecodeRune (takeS size (String c s) +:+ t) = (r, size).
Proof.
  intros Hc Hd Hne.
  destruct s as [|c1 [|c2 [|c3 s]]];
    unfold DecodeRune in Hd;
    repeat (case_match; simplify_eq; try (exfalso; apply Hne; done));
    try (exfalso; unfold highByte, RuneSelf in *; bool_to_prop; lia);
    (split_and!;
     [ lia
     | reflexivity
     | cbn [takeS allBytes]; rewrite Hc; unfold highByte, isCont in *;
       match goal with
       | H : acceptRange _ = Some _ |- _ => apply acceptRange_lo in H
       end;
       bool_to_prop;
       repeat (apply andb_true_intro; split); try done; apply N.leb_le; lia
     | intros t; cbn [takeS]; rewrite ?sapp_cons, ?sapp_nil;
       unfold DecodeRune;
       repeat match goal with
         | H : ?x = _ |- context [?x] => rewrite H
         end;
       reflexivity ]).
Qed.

Lemma itemPass_head (item : string → option (string * nat)) (c : ascii)
    (s out : string) (width : nat) :
  item (String c s) = Some (out, width) →
  itemPass item 0 (String c s)
  = match itemPass item 0 (dropS (Nat.pred width) s) with
    | Some t => Some (out +:+ t)
    | None => None
    end.
Proof.
  intros H. cbn [itemPass]. rewrite H. by rewrite itemPass_dropS.
Qed.

Lemma unquote_item (x t out v : string) :
  x ≠ "" →
  unquoteItem (x +:+ t) = Some (out, String.length x) →
  unquote t = Some v →
  unquote (x +:+ t) = Some (out +:+ v).
Proof.
  unfold unquote. intros Hx Hi Ht.
  rewrite (itemPass_item _ _ _ _ Hx Hi). by rewrite Ht.
Qed.

(** Whatever its bytes, a Go string is written as a string literal the
    scanner accepts and [unquote] reads. *)
Lemma encode_any (n : nat) (s : string) :
  String.length s ≤ n →
  ∃ t v : string,
    itemPass encodeItem 0 s = Some t ∧
    stringBody stateInString t = true ∧
    unquote t = Some v.
Proof.
  revert s. induction n as [|n IH]; intros [|c s] Hl;
    try (by exists "", ""); cbn [String.length] in Hl; [lia |].
  destruct (N.ltb (byte_of c) 128) eqn:Hc.
  { destruct (IH s ltac:(lia)) as (t & v & E & B & U).
    destruct (unquoteItem_ascii c t Hc) as [Hu Hne].
    exists (escapeASCII c +:+ t), (String c "" +:+ v). split_and!.
    - rewrite (itemPass_head _ _ _ _ _ (encodeItem_ascii c s Hc)).
      cbn [Nat.pred dropS]. by rewrite E.
    - apply stringBody_app; [by apply escapeASCII_body | done].
    - by apply unquote_item. }
  assert (highByte c = true) as Hh.
  { unfold highByte. apply N.leb_le. apply N.ltb_ge in Hc. lia. }
  destruct (DecodeRune (String c s)) as [r size] eqn:Hd.
  assert (∀ rest : string,
            String.length rest ≤ String.length s →
            ∃ t v : string,
              itemPass encodeItem 0 rest = Some t ∧
              stringBody stateInString t = true ∧ unquote t = Some v)
    as IH'.
  { intros rest Hr. apply IH. lia. }
  destruct ((r =? RuneError)%N && (size =? 1)) eqn:Herr.
  { destruct (IH' s ltac:(lia)) as (t & v & E & B & U).
    exists (replacementEscape +:+ t), (EncodeRune RuneError +:+ v).
    split_and!.
    - rewrite (itemPass_head _ _ _ replacementEscape 1).
      + cbn [Nat.pred dropS]. by rewrite E.
      + unfold encodeItem, RuneSelf. by rewrite Hc, Hd, Herr.
    - by apply stringBody_app.
    - by apply unquote_item. }
  assert (¬ (r = RuneError ∧ size = 1)) as Hne.
  { intros [-> ->]. by rewrite N.eqb_refl in Herr. }
  destruct (DecodeRune_accepts c s r size Hh Hd Hne)
    as (Hsize & Hlen & Hbytes & Happ).
  destruct (IH' (dropS (Nat.pred size) s)) as (t & v & E & B & U).
  { apply dropS_length. }
  destruct ((r =? 0x2028)%N || (r =? 0x2029)%N) eqn:Hls.
  - exists (escapeMulti r +:+ t), (EncodeRune r +:+ v).
    assert (escapeMulti r
            = "\u202" +:+ String (hexDigit (N.land r 15)) "") as Hesc.
    { apply orb_true_iff in Hls as [->%N.eqb_eq | ->%N.eqb_eq]; done. }
    split_and!.
    + rewrite (itemPass_head _ _ _ (escapeMulti r) size).
      * by rewrite E.
      * unfold encodeItem, RuneSelf. by rewrite Hc, Hd, Herr, Hls, Hesc.
    + apply stringBody_app; [| done].
      apply orb_true_iff in Hls as [->%N.eqb_eq | ->%N.eqb_eq]; done.
    + apply unquote_item; [| | done];
        apply orb_true_iff in Hls as [->%N.eqb_eq | ->%N.eqb_eq]; done.
  - set (x := takeS size (String c s)) in *.
    exists (x +:+ t), (EncodeRune r +:+ v). split_and!.
    + rewrite (itemPass_head _ _ _ x size).
      * by rewrite E.
      * unfold encodeItem, RuneSelf. by rewrite Hc, Hd, Herr, Hls.
    + apply stringBody_app; [by apply stringBody_high | done].
    + apply unquote_item; [| | done].
      * intros Hx. rewrite Hx in Hlen. cbn in Hlen. lia.
      * rewrite Hlen. specialize (Happ t).
        subst x. destruct size as [|k]; [lia |]. cbn [takeS] in *.
        rewrite sapp_cons in *. unfold unquoteItem, RuneSelf.
        rewrite !(highByte_not _ c) by done. rewrite Hc.
        destruct (N.ltb_spec (byte_of c) 32) as [Hlt|_].
        { apply N.ltb_ge in Hc. lia. }
        cbn [orb]. by rewrite Happ.
Qed.

Lemma appendString_of (s t : string) :
  itemPass encodeItem 0 s = Some t →
  appendString s = String DQ (t +:+ String DQ "").
Proof. intros H. unfold appendString. by rewrite H. Qed.

(** X15: whatever bytes the strings of a record hold, [json.Marshal]
    writes a text that [json.Unmarshal] reads without error, as a
    record of well-formed UTF-8 strings: the body of a 200 response is
    always a JSON text of a book. *)
Theorem every_marshalled_book_parses (bk : book) :
  ∃ bk' : book,
    json_Unmarshal (json_Marshal bk).1 new_book = (bk', None) ∧ wfBook bk'.
Proof.
  destruct (encode_any _ (ISBN bk) (le_n _)) as (tI & vI & EI & BI & UI).
  destruct (encode_any _ (Title bk) (le_n _)) as (tT & vT & ET & BT & UT).
  destruct (encode_any _ (Author bk) (le_n _)) as (tA & vA & EA & BA & UA).
  assert ((json_Marshal bk).1
          = dq "{'isbn':'" +:+ tI +:+ dq "','title':'" +:+ tT +:+
            dq "','author':'" +:+ tA +:+ dq "'}") as Htext.
  { unfold json_Marshal. cbn [fst].
    rewrite (appendString_of _ _ EI), (appendString_of _ _ ET),
      (appendString_of _ _ EA).
    rewrite !quoted_app. reflexivity. }
  assert (json_Unmarshal (json_Marshal bk).1 new_book
          = (Book vI vT vA, None)) as Hu.
  { rewrite Htext. unfold json_Unmarshal.
    rewrite scanJSON_marshalled by done. cbn [fold_left].
    rewrite (decodeMember_string _ _ "isbn" tI vI fieldISBN) by done.
    rewrite (decodeMember_string _ _ "title" tT vT fieldTitle) by done.
    by rewrite (decodeMember_string _ _ "author" tA vA fieldAuthor). }
  exists (Book vI vT vA). split; [done |].
  pose proof (json_Unmarshal_wf (json_Marshal bk).1) as Hwf.
  by rewrite Hu in Hwf.
Qed.

(** ** The further statements at sample inputs *)

Lemma show_found_is_200_witness :
  run_mem (show sampleGet) storedWorld
  = ((Response.Make 200 ∅
        (dq "{'isbn':'123-4567890123','title':'Emma','author':'Jane Austen'}"),
      None),
     MkWorld (db storedWorld) [] [CallGet "123-4567890123"]).
Proof.
  apply (show_found_is_200 mem_getItem mem_putItem "/var/task/main.go"
           sampleGet storedWorld sampleBook (db storedWorld));
    reflexivity.
Defined.

Lemma rejections_have_no_effect_witness :
  (run_mem (router (Request.Make "/books" "POST" jsonHeaders ∅ (dq "{'isbn':")))
     storedWorld).2
  = storedWorld.
Proof.
  apply (rejections_have_no_effect mem_getItem mem_putItem "/var/task/main.go"
           (Request.Make "/books" "POST" jsonHeaders ∅ (dq "{'isbn':"))
           storedWorld).
  change (422%Z ∈ [400; 405; 406; 422]%Z).
  rewrite !elem_of_cons. do 3 right. by left.
Defined.

Lemma statuses_by_method_witness :
  Response.StatusCode (run_mem (router sampleGet) storedWorld).1.1
  ∈ [200; 400; 404; 500]%Z ∧
  Response.StatusCode (run_mem (router samplePost) brokenWorld).1.1
  ∈ [201; 400; 406; 422; 500]%Z.
Proof.
  split.
  - apply (statuses_by_method mem_getItem mem_putItem "/var/task/main.go"
             sampleGet storedWorld). reflexivity.
  - apply (statuses_by_method mem_getItem mem_putItem "/var/task/main.go"
             samplePost brokenWorld). reflexivity.
Defined.

Lemma success_comes_from_the_store_witness :
  (∃ (bk : book) (s' : MemStore),
     Request.HTTPMethod samplePost = "POST" ∧
     json_Unmarshal (Request.Body samplePost) new_book = (bk, None) ∧
     validBook bk ∧
     mem_putItem bk (db emptyWorld) = (None, s') ∧
     db (run_mem (router samplePost) emptyWorld).2 = s') ∧
  (∃ (b : book) (s' : MemStore),
     Request.HTTPMethod sampleGet = "GET" ∧
     mem_getItem "123-4567890123" (db storedWorld) = ((Some b, None), s') ∧
     Response.Body (run_mem (router sampleGet) storedWorld).1.1
     = (json_Marshal b).1 ∧
     db (run_mem (router sampleGet) storedWorld).2 = s').
Proof.
  split.
  - apply (success_comes_from_the_store mem_getItem mem_putItem
             "/var/task/main.go" samplePost emptyWorld). reflexivity.
  - apply (success_comes_from_the_store mem_getItem mem_putItem
             "/var/task/main.go" sampleGet storedWorld). reflexivity.
Defined.

Lemma validator_tolerates_padding_witness :
  MatchString isbnRegexp ("isbn=" +:+ "123-4567890123" +:+ "&x=1") = true.
Proof.
  apply (validator_tolerates_padding "isbn=" "123-4567890123" "&x=1").
  reflexivity.
Defined.

Lemma short_isbn_is_rejected_witness :
  MatchString isbnRegexp "123-456789012" = false ∧
  show (Request.Make "/books" "GET" ∅ {[ "isbn" := "123-456789012" ]} "")
  = Ret response400.
Proof.
  assert (String.length
            (index (Request.QueryStringParameters
                      (Request.Make "/books" "GET" ∅
                         {[ "isbn" := "123-456789012" ]} "")) "isbn") < 14)
    as Hlen by (vm_compute; lia).
  exact (short_isbn_is_rejected _ Hlen).
Defined.

Lemma accentedBook_wf : wfBook accentedBook.
Proof.
  unfold accentedBook, wfBook. cbn [ISBN Title Author].
  split_and!.
  - repeat (apply wf_ascii; [reflexivity |]). apply wf_empty.
  - repeat (apply wf_ascii; [reflexivity |]).
    apply (wf_multi 233 ""); [reflexivity | reflexivity | apply wf_empty].
  - repeat (apply wf_ascii; [reflexivity |]). apply wf_empty.
Defined.

Lemma book_json_roundtrip_witness :
  (json_Marshal accentedBook).2 = None ∧
  json_Unmarshal (json_Marshal accentedBook).1 new_book = (accentedBook, None).
Proof.
  apply (book_json_roundtrip accentedBook). exact accentedBook_wf.
Defined.

Lemma bodies_that_are_not_objects_witness :
  create (Request.Make "/books" "POST" jsonHeaders ∅ "[1, 2]")
  = Ret response422 ∧
  create (Request.Make "/books" "POST" jsonHeaders ∅ "null")
  = Ret response400 ∧
  create (Request.Make "/books" "POST" jsonHeaders ∅ "")
  = Ret response422.
Proof.
  split_and!.
  - exact (bodies_that_are_not_objects
             (Request.Make "/books" "POST" jsonHeaders ∅ "[1, 2]") eq_refl).
  - exact (bodies_that_are_not_objects
             (Request.Make "/books" "POST" jsonHeaders ∅ "null") eq_refl).
  - exact (bodies_that_are_not_objects
             (Request.Make "/books" "POST" jsonHeaders ∅ "") eq_refl).
Defined.

Lemma wrong_typed_field_is_422_witness :
  create numberTitlePost = Ret response422.
Proof.
  apply (wrong_typed_field_is_422 numberTitlePost
           [("isbn", JString "123-4567890123"); ("title", JNumber "5");
            ("author", JString "Jane Austen")]).
  - reflexivity.
  - vm_compute. reflexivity.
  - vm_compute. reflexivity.
Defined.

Lemma absent_field_is_never_stored_witness :
  create nullTitlePost = Ret response400 ∨
  create nullTitlePost = Ret response422.
Proof.
  apply (absent_field_is_never_stored nullTitlePost
           [("isbn", JString "123-4567890123"); ("title", JNull);
            ("author", JString "Jane Austen")] fieldTitle).
  - reflexivity.
  - vm_compute. reflexivity.
  - vm_compute. reflexivity.
Defined.
